(** * ha-stats: HAProxy statistics to statsd

    A shallow embedding of [templates/ha-stats.py] (Python 2): the fetch
    stage [get_ha_stats], the emit stage [push_to_statsd] and the body of
    the polling loop, together with the parts of the Python runtime the two
    functions rely on ([str.lstrip], [str.splitlines], [str.join], the [csv]
    reader with the [excel] dialect, [csv.DictReader] and
    [Response.raise_for_status] of [requests]).

    Python 2 byte strings are Rocq [string]s (lists of 8-bit characters);
    Python integers are [Z]; exceptions are values of [exn] carried by a
    state-and-error monad over the observable world. *)

From Stdlib Require Import ZArith Ascii String List Lia Bool.
From stdpp Require Import base option list gmap strings fin_maps pretty.

Local Open Scope string_scope.
Local Open Scope list_scope.
Local Open Scope Z_scope.

(* ===================================================================== *)
(** ** Characters and byte strings *)
(* ===================================================================== *)

Module PyStr.

Definition NUL : ascii := "000"%char.
Definition LF : ascii := "010"%char.
Definition CR : ascii := "013"%char.
Definition DQUOTE : ascii := "034"%char.
Definition COMMA : ascii := ","%char.

Definition eqc (a b : ascii) : bool := Ascii.eqb a b.

(** [c in chars] for a one-character [c]. *)
Fixpoint mem (c : ascii) (chars : string) : bool :=
  match chars with
  | EmptyString => false
  | String d rest => eqc c d || mem c rest
  end.

(** [s + c]: a byte appended at the end. *)
Definition snoc (s : string) (c : ascii) : string := s +:+ String c EmptyString.

(** [len(s)] as a Python integer. *)
Fixpoint len (s : string) : Z :=
  match s with
  | EmptyString => 0
  | String _ rest => 1 + len rest
  end.

(** [s.lstrip(chars)]: drops the longest prefix of [s] made of bytes that
    occur in [chars] (a set of bytes, not a prefix). *)
Fixpoint lstrip (s chars : string) : string :=
  match s with
  | EmptyString => EmptyString
  | String c rest => if mem c chars then lstrip rest chars else s
  end.

(** [s.splitlines()] on a byte string: line breaks are LF, CR and CR LF;
    the breaks are not kept, and a final break opens no further line.
    [cur] is the line being scanned, [started] says that the scan of a
    line has begun (the index [i < len] test of the C loop), [cr] that the
    previous byte was a CR whose LF partner is to be swallowed. *)
Fixpoint splitlines_from (cur : string) (started cr : bool) (s : string)
  : list string :=
  match s with
  | EmptyString => if started then [cur] else []
  | String c rest =>
      if eqc c LF then
        if cr then splitlines_from EmptyString false false rest
        else cur :: splitlines_from EmptyString false false rest
      else if eqc c CR then
        cur :: splitlines_from EmptyString false true rest
      else splitlines_from (snoc cur c) true false rest
  end.

Definition splitlines (s : string) : list string :=
  splitlines_from EmptyString false false s.

(** [sep.join(items)] on byte strings. *)
Fixpoint join (sep : string) (items : list string) : string :=
  match items with
  | [] => EmptyString
  | [x] => x
  | x :: rest => x +:+ sep +:+ join sep rest
  end.

(** [s.split(sep)] for a one-byte separator: the reference the csv reader
    is compared with on lines without quoting. *)
Fixpoint split_from (cur : string) (sep : ascii) (s : string) : list string :=
  match s with
  | EmptyString => [cur]
  | String c rest =>
      if eqc c sep then cur :: split_from EmptyString sep rest
      else split_from (snoc cur c) sep rest
  end.

Definition split (s : string) (sep : ascii) : list string :=
  split_from EmptyString sep s.

End PyStr.

Import PyStr.

(* ===================================================================== *)
(** ** Python values, exceptions and iterators *)
(* ===================================================================== *)

(** The Python objects a statistics row can hold and the metric loop can
    format: [None], a byte string, an integer. *)
Inductive value : Type :=
| VNone
| VStr (s : string)
| VInt (z : Z).

(** [bool(v)]. *)
Definition truthy (v : value) : bool :=
  match v with
  | VNone => false
  | VStr s => negb (String.eqb s EmptyString)
  | VInt z => negb (z =? 0)
  end.

(** [a or b]. *)
Definition py_or (a b : value) : value := if truthy a then a else b.

(** [str(v)], what a [%s] conversion inserts. *)
Definition str (v : value) : string :=
  match v with
  | VNone => "None"
  | VStr s => s
  | VInt z => pretty z
  end.

Inductive exn : Type :=
| KeyError (key : string)
| TypeError (msg : string)
| HTTPError (status_code : Z)
| RequestException (msg : string)
| csv_Error (msg : string)
| socket_gaierror (code : Z) (msg : string)
| socket_error (errno : Z) (msg : string)
| OverflowError (msg : string).

(** The outcome of a call that may raise. *)
Inductive Exc (A : Type) : Type :=
| Raise (e : exn)
| Return (a : A).
Arguments Raise {A} e.
Arguments Return {A} a.

Definition bindE {A B : Type} (m : Exc A) (k : A -> Exc B) : Exc B :=
  match m with
  | Raise e => Raise e
  | Return a => k a
  end.

Notation "x <-- m ;; k" := (bindE m (fun x => k))
  (at level 100, m at next level, right associativity,
   format "x  <--  m  ;;  '//' k").

(** The complete run of an iterator that has no effect outside itself: the
    items it yields, ended by [StopIteration] ([Stop]) or by an exception
    raised out of [next] ([Fail]). *)
Inductive Iter (A : Type) : Type :=
| Stop
| Fail (e : exn)
| Yield (a : A) (rest : Iter A).
Arguments Stop {A}.
Arguments Fail {A} e.
Arguments Yield {A} a rest.

(** [iter(l)] for a list. *)
Fixpoint iter {A : Type} (l : list A) : Iter A :=
  match l with
  | [] => Stop
  | a :: rest => Yield a (iter rest)
  end.

(** The items an iterator yields before it ends. *)
Fixpoint items {A : Type} (it : Iter A) : list A :=
  match it with
  | Yield a rest => a :: items rest
  | _ => []
  end.

(** The exception that ends the iteration, if one does. *)
Fixpoint failure {A : Type} (it : Iter A) : option exn :=
  match it with
  | Stop => None
  | Fail e => Some e
  | Yield _ rest => failure rest
  end.

(* ===================================================================== *)
(** ** The csv module: reader and DictReader *)
(* ===================================================================== *)

Module Csv.

Inductive ParserState : Type :=
| START_RECORD | START_FIELD | ESCAPED_CHAR | IN_FIELD
| IN_QUOTED_FIELD | ESCAPE_IN_QUOTED_FIELD | QUOTE_IN_QUOTED_FIELD
| EAT_CRNL.

Inductive QuoteStyle : Type :=
| QUOTE_MINIMAL | QUOTE_ALL | QUOTE_NONNUMERIC | QUOTE_NONE.

Definition is_QUOTE_NONE (q : QuoteStyle) : bool :=
  match q with QUOTE_NONE => true | _ => false end.

(** A dialect; as in the C module an absent [escapechar] is the NUL byte. *)
Record Dialect : Type := mkDialect {
  doublequote : bool;
  delimiter : ascii;
  quotechar : ascii;
  escapechar : ascii;
  skipinitialspace : bool;
  strict : bool;
  quoting : QuoteStyle
}.

(** [csv.excel], the dialect [DictReader] uses when none is given. *)
Definition excel : Dialect :=
  {| doublequote := true; delimiter := COMMA; quotechar := DQUOTE;
     escapechar := NUL; skipinitialspace := false; strict := false;
     quoting := QUOTE_MINIMAL |}.

(** [csv.field_size_limit()]: 128 KiB. *)
Definition field_limit : Z := 131072.

(** The parser part of a reader object. The excel dialect never marks a
    field numeric, so every field is saved as the byte string read. *)
Record Reader : Type := mkReader {
  fields : list string;
  state : ParserState;
  field : string;
  field_len : Z
}.

Definition set_state (self : Reader) (st : ParserState) : Reader :=
  {| fields := fields self; state := st;
     field := field self; field_len := field_len self |}.

Definition parse_reset : Reader :=
  {| fields := []; state := START_RECORD;
     field := EmptyString; field_len := 0 |}.

Definition parse_save_field (self : Reader) : Reader :=
  {| fields := fields self ++ [field self]; state := state self;
     field := EmptyString; field_len := 0 |}.

Definition parse_add_char (self : Reader) (c : ascii) : Exc Reader :=
  if field_limit <=? field_len self then
    Raise (csv_Error "field larger than field limit (131072)")
  else
    Return {| fields := fields self; state := state self;
              field := snoc (field self) c;
              field_len := field_len self + 1 |}.

Definition is_eol (c : ascii) : bool := eqc c LF || eqc c CR || eqc c NUL.

Definition after_eol (c : ascii) : ParserState :=
  if eqc c NUL then START_RECORD else EAT_CRNL.

(** The [START_FIELD] case, which [START_RECORD] falls through to. *)
Definition start_field (d : Dialect) (self : Reader) (c : ascii) : Exc Reader :=
  if is_eol c then
    Return (set_state (parse_save_field self) (after_eol c))
  else if eqc c (quotechar d) && negb (is_QUOTE_NONE (quoting d)) then
    Return (set_state self IN_QUOTED_FIELD)
  else if eqc c (escapechar d) then
    Return (set_state self ESCAPED_CHAR)
  else if eqc c " " && skipinitialspace d then
    Return self
  else if eqc c (delimiter d) then
    Return (parse_save_field self)
  else
    self' <-- parse_add_char self c ;;
    Return (set_state self' IN_FIELD).

(** One byte through the state machine; NUL stands for the end of a line. *)
Definition parse_process_char (d : Dialect) (self : Reader) (c : ascii)
  : Exc Reader :=
  match state self with
  | START_RECORD =>
      if eqc c NUL then Return self
      else if eqc c LF || eqc c CR then Return (set_state self EAT_CRNL)
      else start_field d (set_state self START_FIELD) c
  | START_FIELD => start_field d self c
  | ESCAPED_CHAR =>
      self' <-- parse_add_char self (if eqc c NUL then LF else c) ;;
      Return (set_state self' IN_FIELD)
  | IN_FIELD =>
      if is_eol c then
        Return (set_state (parse_save_field self) (after_eol c))
      else if eqc c (escapechar d) then
        Return (set_state self ESCAPED_CHAR)
      else if eqc c (delimiter d) then
        Return (set_state (parse_save_field self) START_FIELD)
      else parse_add_char self c
  | IN_QUOTED_FIELD =>
      if eqc c NUL then Return self
      else if eqc c (escapechar d) then
        Return (set_state self ESCAPE_IN_QUOTED_FIELD)
      else if eqc c (quotechar d) && negb (is_QUOTE_NONE (quoting d)) then
        if doublequote d then Return (set_state self QUOTE_IN_QUOTED_FIELD)
        else Return (set_state self IN_FIELD)
      else parse_add_char self c
  | ESCAPE_IN_QUOTED_FIELD =>
      self' <-- parse_add_char self (if eqc c NUL then LF else c) ;;
      Return (set_state self' IN_QUOTED_FIELD)
  | QUOTE_IN_QUOTED_FIELD =>
      if negb (is_QUOTE_NONE (quoting d)) && eqc c (quotechar d) then
        self' <-- parse_add_char self c ;;
        Return (set_state self' IN_QUOTED_FIELD)
      else if eqc c (delimiter d) then
        Return (set_state (parse_save_field self) START_FIELD)
      else if is_eol c then
        Return (set_state (parse_save_field self) (after_eol c))
      else if negb (strict d) then
        self' <-- parse_add_char self c ;;
        Return (set_state self' IN_FIELD)
      else Raise (csv_Error (String "'" (String (delimiter d)
               ("' expected after '" +:+ String (quotechar d) "'"))))
  | EAT_CRNL =>
      if eqc c LF || eqc c CR then Return self
      else if eqc c NUL then Return (set_state self START_RECORD)
      else Raise (csv_Error ("new-line character seen in unquoted field - "
                +:+ "do you need to open the file in universal-newline mode?"))
  end.

(** The bytes of one line, each refused if it is NUL. *)
Fixpoint parse_line (d : Dialect) (self : Reader) (line : string) : Exc Reader :=
  match line with
  | EmptyString => Return self
  | String c rest =>
      if eqc c NUL then Raise (csv_Error "line contains NULL byte")
      else self' <-- parse_process_char d self c ;;
           parse_line d self' rest
  end.

Definition is_START_RECORD (st : ParserState) : bool :=
  match st with START_RECORD => true | _ => false end.

Definition is_IN_QUOTED_FIELD (st : ParserState) : bool :=
  match st with IN_QUOTED_FIELD => true | _ => false end.

(** What [Reader_iternext] does when its input has no further line. *)
Definition end_of_input (d : Dialect) (self : Reader) : Exc (option (list string)) :=
  if negb (field_len self =? 0) || is_IN_QUOTED_FIELD (state self) then
    if strict d then Raise (csv_Error "unexpected end of data")
    else Return (Some (fields (parse_save_field self)))
  else Return None.

(** The do-while loop of [Reader_iternext]: lines are drawn from [input]
    until the parser is back at [START_RECORD]. The result is the record
    and the lines left, or [None] for [StopIteration]. *)
Fixpoint Reader_loop (d : Dialect) (self : Reader) (input : list string)
  : Exc (option (list string * list string)) :=
  match input with
  | [] =>
      r <-- end_of_input d self ;;
      Return (option_map (fun fs => (fs, [])) r)
  | line :: rest =>
      self1 <-- parse_line d self line ;;
      self2 <-- parse_process_char d self1 NUL ;;
      if is_START_RECORD (state self2) then Return (Some (fields self2, rest))
      else Reader_loop d self2 rest
  end.

Definition Reader_iternext (d : Dialect) (input : list string)
  : Exc (option (list string * list string)) :=
  Reader_loop d parse_reset input.

(** The run of [csv.reader(input, dialect)]: [Reader_iternext] called until
    it stops or raises, written as one pass over the lines with the parser
    reset after each record. *)
Fixpoint reader_from (d : Dialect) (self : Reader) (input : list string)
  : Iter (list string) :=
  match input with
  | [] =>
      match end_of_input d self with
      | Raise e => Fail e
      | Return None => Stop
      | Return (Some fs) => Yield fs Stop
      end
  | line :: rest =>
      match (self1 <-- parse_line d self line ;;
             parse_process_char d self1 NUL) with
      | Raise e => Fail e
      | Return self2 =>
          if is_START_RECORD (state self2)
          then Yield (fields self2) (reader_from d parse_reset rest)
          else reader_from d self2 rest
      end
  end.

Definition reader (input : list string) (d : Dialect) : Iter (list string) :=
  reader_from d parse_reset input.

End Csv.

(** A row as [DictReader] builds it: [cols] holds the entries under column
    names, whose values are byte strings or the restval [None]; [rest] holds
    the entry under the restkey [None], the list of surplus values of a row
    longer than the header, when there is one. *)
Record Row : Type := mkRow {
  cols : gmap string value;
  rest : option (list string)
}.

Module DictReaderImpl.

(** [dict(zip(fieldnames, row))]: a later pair replaces an earlier one
    with the same key. *)
Definition dict_zip (fieldnames row : list string) : gmap string value :=
  foldl (fun d kv => <[fst kv := VStr (snd kv)]> d) ∅ (zip fieldnames row).

(** [for key in keys: d[key] = restval]. *)
Definition fill_restval (keys : list string) (restval : value)
  (d : gmap string value) : gmap string value :=
  foldl (fun d key => <[key := restval]> d) d keys.

(** The dict [DictReader.next] returns for a non-empty record, with the
    default [restkey=None] and [restval=None]. *)
Definition make_row (fieldnames row : list string) : Row :=
  let d := dict_zip fieldnames row in
  let lf := length fieldnames in
  let lr := length row in
  if Nat.ltb lf lr then {| cols := d; rest := Some (drop lf row) |}
  else if Nat.ltb lr lf then
    {| cols := fill_restval (drop lr fieldnames) VNone d; rest := None |}
  else {| cols := d; rest := None |}.

(** The records after the header: empty records are passed over. *)
Fixpoint rows_of (fieldnames : list string) (records : Iter (list string))
  : Iter Row :=
  match records with
  | Stop => Stop
  | Fail e => Fail e
  | Yield [] more => rows_of fieldnames more
  | Yield row more => Yield (make_row fieldnames row) (rows_of fieldnames more)
  end.

(** [csv.DictReader(f)]: the first record, empty or not, names the
    columns; an input with no record yields nothing. *)
Definition DictReader (f : list string) : Iter Row :=
  match Csv.reader f Csv.excel with
  | Stop => Stop
  | Fail e => Fail e
  | Yield fieldnames more => rows_of fieldnames more
  end.

End DictReaderImpl.

(* ===================================================================== *)
(** ** The world the script acts on *)
(* ===================================================================== *)

(** What [requests.get] returns. *)
Record Response : Type := mkResponse {
  status_code : Z;
  content : string
}.

(** [HTTPBasicAuth(user, password)]. *)
Definition Auth : Type := (value * value)%type.

(** A datagram handed to [sendto]: the payload and the address
    [(host, port)]. *)
Definition Datagram : Type := (string * (string * Z))%type.

(** The stats source as [requests.get] sees it, the datagrams sent so far,
    the lines printed so far, and what [time.strftime] answers. *)
Record World : Type := mkWorld {
  server : string -> option Auth -> Exc Response;
  network : list Datagram;
  stdout : list string;
  clock : string
}.

(** Computations that act on the world and may raise; an exception keeps
    the effects that came before it. *)
Definition M (A : Type) : Type := World -> Exc A * World.

Definition ret {A : Type} (a : A) : M A := fun w => (Return a, w).

Definition raise {A : Type} (e : exn) : M A := fun w => (Raise e, w).

Definition bind {A B : Type} (m : M A) (k : A -> M B) : M B :=
  fun w =>
    match m w with
    | (Raise e, w') => (Raise e, w')
    | (Return a, w') => k a w'
    end.

Notation "x <- m ;; k" := (bind m (fun x => k))
  (at level 100, m at next level, right associativity,
   format "x  <-  m  ;;  '//' k").

Definition liftE {A : Type} (m : Exc A) : M A := fun w => (m, w).

(** [for x in l: body], with the local variables the body updates. *)
Fixpoint for_list {A S : Type} (l : list A) (body : A -> S -> M S) (s : S) : M S :=
  match l with
  | [] => ret s
  | x :: more => s' <- body x s ;; for_list more body s'
  end.

(** [for x in it: body] over an iterator: an exception out of [next] ends
    the loop and propagates. *)
Fixpoint for_iter {A S : Type} (it : Iter A) (body : A -> S -> M S) (s : S) : M S :=
  match it with
  | Stop => ret s
  | Fail e => raise e
  | Yield x more => s' <- body x s ;; for_iter more body s'
  end.

Definition requests_get (url : string) (auth : option Auth) : M Response :=
  fun w => (server w url auth, w).

Section Socket.

(** Whether the machine the script runs on can turn a host into an
    address; it is the one part of the socket layer that differs from
    machine to machine. *)
Variable resolves : string -> bool.

(** The largest payload of a datagram over IPv4. *)
Definition max_payload : Z := 65507.

(** What [udp.sendto(payload, (host, port))] raises on an IPv4 datagram
    socket, if anything: [socket.gaierror] for a host that does not
    resolve, [OverflowError] for a port outside 0 to 65535, and
    [socket.error] with [EMSGSIZE] for a payload over [max_payload]
    bytes, tested in that order. *)
Definition sendto_error (payload : string) (address : string * Z) : option exn :=
  if negb (resolves (fst address)) then
    Some (socket_gaierror (-2) "Name or service not known")
  else if (snd address <? 0) || (65535 <? snd address) then
    Some (OverflowError "getsockaddrarg: port must be 0-65535.")
  else if max_payload <? len payload then
    Some (socket_error 90 "Message too long")
  else None.

(** [udp.sendto(payload, address)] on a datagram socket: the call raises
    what [sendto_error] says, and otherwise the datagram leaves; nothing
    is learnt about its delivery. *)
Definition sendto (payload : string) (address : string * Z) : M unit :=
  fun w =>
    match sendto_error payload address with
    | Some e => (Raise e, w)
    | None =>
        (Return tt,
         {| server := server w; network := network w ++ [(payload, address)];
            stdout := stdout w; clock := clock w |})
    end.

Definition print (line : string) : M unit :=
  fun w => (Return tt,
            {| server := server w; network := network w;
               stdout := stdout w ++ [line]; clock := clock w |}).

Definition strftime : M string := fun w => (Return (clock w), w).

(** [row[key]]. *)
Definition getitem (row : Row) (key : string) : Exc value :=
  match cols row !! key with
  | Some v => Return v
  | None => Raise (KeyError key)
  end.

(** [row.get(key)]. *)
Definition dict_get (row : Row) (key : string) : value :=
  match cols row !! key with
  | Some v => v
  | None => VNone
  end.

Definition type_name (v : value) : string :=
  match v with
  | VNone => "NoneType"
  | VStr _ => "str"
  | VInt _ => "int"
  end.

(** The items of a join, each checked to be a byte string. *)
Fixpoint join_items (i : Z) (items : list value) : Exc (list string) :=
  match items with
  | [] => Return []
  | VStr s :: more => l <-- join_items (i + 1) more ;; Return (s :: l)
  | v :: _ =>
      Raise (TypeError ("sequence item " +:+ pretty i +:+ ": expected string, "
                        +:+ type_name v +:+ " found"))
  end.

(** [sep.join(items)] on Python values. *)
Definition str_join (sep : string) (items : list value) : Exc string :=
  l <-- join_items 0 items ;; Return (join sep l).

(* ===================================================================== *)
(** ** templates/ha-stats.py *)
(* ===================================================================== *)

(** [Response.raise_for_status]: an [HTTPError] for the client and server
    error classes, 400 to 599. *)
Definition raise_for_status (i : Response) : Exc unit :=
  if (400 <=? status_code i) && (status_code i <? 600)
  then Raise (HTTPError (status_code i))
  else Return tt.

Definition get_ha_stats (url : string) (user password : value) : M (Iter Row) :=
  let auth := if truthy user then Some (user, password) else None in
  i <- requests_get url auth ;;
  _ <- liftE (raise_for_status i) ;;
  let data := lstrip (content i) "# " in
  ret (DictReaderImpl.DictReader (splitlines data)).

(** The default field selection of [push_to_statsd]. *)
Definition stats : list string :=
  ["qcur"; "qmax"; "scur"; "smax"; "rate"; "rate_max";
   "hrsp_1xx"; "hrsp_2xx"; "hrsp_3xx"; "hrsp_4xx"; "hrsp_5xx"; "bin"; "bout"].

(** ['%s.%s:%s|g' % (name, data, value)]. *)
Definition payload (name data : string) (value : value) : string :=
  name +:+ "." +:+ data +:+ ":" +:+ str value +:+ "|g".

(** The body of [for data in [...]], for the row at hand and its [name]. *)
Definition report_stat (host : string) (port : Z) (name : string) (row : Row)
  (data : string) (stat_count : Z) : M Z :=
  let value := py_or (dict_get row data) (VInt 0) in
  _ <- sendto (payload name data value) (host, port) ;;
  ret (stat_count + 1).

(** The body of [for row in rows]. *)
Definition report_row (host : string) (port : Z) (namespace : string)
  (row : Row) (stat_count : Z) : M Z :=
  pxname <- liftE (getitem row "pxname") ;;
  svname <- liftE (getitem row "svname") ;;
  name <- liftE (str_join "." [VStr namespace; pxname; svname]) ;;
  for_list stats (report_stat host port name row) stat_count.

Definition push_to_statsd (rows : Iter Row) (host : string) (port : Z)
  (namespace : string) : M Z :=
  stat_count <- for_iter rows (report_row host port namespace) 0 ;;
  ret stat_count.

(** The resolved settings the loop reads from [conf]. *)
Record Conf : Type := mkConf {
  ha_url : string;
  ha_user : string;
  ha_pass : string;
  statsd_host : string;
  statsd_port : Z
}.

(** One pass of the [while True] loop, up to the report line. *)
Definition cycle (conf : Conf) (namespace : string) : M Z :=
  get_stats <- get_ha_stats (ha_url conf) (VStr (ha_user conf)) (VStr (ha_pass conf)) ;;
  push_statsd <- push_to_statsd get_stats (statsd_host conf) (statsd_port conf) namespace ;;
  now <- strftime ;;
  _ <- print (now +:+ " - Reported " +:+ str (VInt push_statsd) +:+ " stats") ;;
  ret push_statsd.

(* ===================================================================== *)
(** ** What a run adds to the world *)
(* ===================================================================== *)

(** The world after the datagrams [l] have left. *)
Definition add_net (w : World) (l : list Datagram) : World :=
  {| server := server w; network := network w ++ l;
     stdout := stdout w; clock := clock w |}.

(** The world after [line] has been printed. *)
Definition add_out (w : World) (line : string) : World :=
  {| server := server w; network := network w;
     stdout := stdout w ++ [line]; clock := clock w |}.

(** The value a metric line carries for the column [data] of [row]. *)
Definition metric_value (row : Row) (data : string) : value :=
  py_or (dict_get row data) (VInt 0).

(** The metric name of a row, when its two name columns allow one. *)
Definition row_name (namespace : string) (row : Row) : Exc string :=
  pxname <-- getitem row "pxname" ;;
  svname <-- getitem row "svname" ;;
  str_join "." [VStr namespace; pxname; svname].

(** The datagrams of one row for the columns [l], in the order of [l]. *)
Definition row_datagrams (host : string) (port : Z) (name : string) (row : Row)
  (l : list string) : list Datagram :=
  map (fun data => (payload name data (metric_value row data), (host, port))) l.



(** The datagrams of [l] handed to [sendto] one after the other: those
    that leave before the first one that is refused, and the exception of
    the refusal, if there is one. *)
Fixpoint sends (l : list Datagram) : list Datagram * option exn :=
  match l with
  | [] => ([], None)
  | dg :: more =>
      match sendto_error (fst dg) (snd dg) with
      | Some e => ([], Some e)
      | None => let '(s, r) := sends more in (dg :: s, r)
      end
  end.

(** The result of the row loop and the datagrams it sends, as functions of
    the rows alone. *)
Fixpoint emit_run (host : string) (port : Z) (namespace : string)
  (it : Iter Row) (stat_count : Z) : Exc Z * list Datagram :=
  match it with
  | Stop => (Return stat_count, [])
  | Fail e => (Raise e, [])
  | Yield row more =>
      match row_name namespace row with
      | Raise e => (Raise e, [])
      | Return name =>
          match sends (row_datagrams host port name row stats) with
          | (s, Some e) => (Raise e, s)
          | (s, None) =>
              let '(r, l) := emit_run host port namespace more
                               (stat_count + Z.of_nat (length stats)) in
              (r, s ++ l)
          end
      end
  end.





(* ===================================================================== *)
(** ** Reference definitions for the fetch stage *)
(* ===================================================================== *)

(** The marker strip as the specification words it: exactly one leading
    [#] followed by one space is removed, and a body that does not start
    with that pair is left as it is. *)
Definition strip_marker (body : string) : string :=
  match body with
  | String "#" (String " " text) => text
  | _ => body
  end.

(** Whether [body] starts with the bytes of [chars] in that order. *)
Fixpoint startswith (body chars : string) : bool :=
  match chars, body with
  | EmptyString, _ => true
  | String c chars', String b body' => eqc b c && startswith body' chars'
  | String _ _, EmptyString => false
  end.

(** Whether every byte of [s] occurs in [chars]. *)
Fixpoint all_in (chars s : string) : bool :=
  match s with
  | EmptyString => true
  | String c more => mem c chars && all_in chars more
  end.

(** A byte the csv reader takes as plain text outside quotes: not a quote,
    not NUL, not a line break. *)
Definition plain_char (c : ascii) : bool :=
  negb (eqc c NUL || eqc c LF || eqc c CR || eqc c DQUOTE).

Fixpoint all_plain (s : string) : bool :=
  match s with
  | EmptyString => true
  | String c more => plain_char c && all_plain more
  end.

(** A line without quoting that no field of which can pass the field size
    limit. *)
Definition plain_line (line : string) : bool :=
  all_plain line && (len line <=? Csv.field_limit).

(** The record a plain line stands for: its comma-separated fields, and no
    field at all for a blank line. *)
Definition record_of_line (line : string) : list string :=
  match line with
  | EmptyString => []
  | _ => split line COMMA
  end.

Definition nonblank (line : string) : bool :=
  match line with
  | EmptyString => false
  | _ => true
  end.

(** The lines [get_ha_stats] hands to [DictReader] for a response body. *)
Definition lines_of (body : string) : list string :=
  splitlines (lstrip body "# ").

(** The credentials [get_ha_stats] passes to [requests.get]. *)
Definition auth_of (user password : value) : option Auth :=
  if truthy user then Some (user, password) else None.

(** The outcome of [get_ha_stats] as a function of what the server
    answers. *)
Definition fetch_result (answer : Exc Response) : Exc (Iter Row) :=
  i <-- answer ;;
  _ <-- raise_for_status i ;;
  Return (DictReaderImpl.DictReader (lines_of (content i))).

(** The line the loop prints after a pass. *)
Definition report_line (now : string) (push_statsd : Z) : string :=
  now +:+ " - Reported " +:+ str (VInt push_statsd) +:+ " stats".

(** [n] copies of the byte [c]. *)
Definition bytes (n : N) (c : ascii) : string :=
  N.iter n (String c) EmptyString.

(* ===================================================================== *)
(** ** Sample data *)
(* ===================================================================== *)

(** A frontend row with an empty [qcur], as [DictReader] builds it. *)
Definition frontend_row : Row :=
  DictReaderImpl.make_row
    ["pxname"; "svname"; "qcur"; "scur"; "bin"]
    ["web"; "FRONTEND"; EmptyString; "7"; "4096"].



(** A world whose stats source answers every request with [i]. *)
Definition world_of (i : Response) (now : string) : World :=
  {| server := fun _ _ => Return i; network := []; stdout := []; clock := now |}.

Definition sample_conf : Conf :=
  {| ha_url := "http://127.0.0.1:80/;csv"; ha_user := EmptyString;
     ha_pass := EmptyString; statsd_host := "127.0.0.1"; statsd_port := 8125 |}.

(** A two-line body in the shape the stats source sends. *)
Definition plain_body : string :=
  "# pxname,svname,qcur,bin" +:+ String LF ("web,FRONTEND,,4096" +:+ String LF
  ("web,BACKEND,2,512" +:+ String LF EmptyString)).

(** A body whose second data line has fewer columns than the header and
    whose third has more. *)
Definition ragged_body : string :=
  "# pxname,svname,qcur" +:+ String LF ("web,FRONTEND,1" +:+ String LF
  ("web,BACKEND" +:+ String LF ("web,srv1,0,9,8" +:+ String LF EmptyString))).

(** A body with a quoted field that holds a line break. *)
Definition quoted_body : string :=
  "# pxname,svname" +:+ String LF (String DQUOTE ("we" +:+ String LF
  ("b" +:+ String DQUOTE (",FRONTEND" +:+ String LF EmptyString)))).

(** A body with a blank line between two data lines. *)
Definition blank_line_body : string :=
  "# pxname,svname" +:+ String LF ("web,FRONTEND" +:+ String LF
  (String LF ("web,BACKEND" +:+ String LF EmptyString))).

(** A body whose header starts with [#] but has no space after it. *)
Definition unmarked_body : string :=
  "#pxname,svname" +:+ String LF ("web,FRONTEND" +:+ String LF EmptyString).

(** A machine that resolves its own address and name only. *)
Definition local_resolver (host : string) : bool :=
  String.eqb host "127.0.0.1" || String.eqb host "localhost".


(** A later world with the same stats source: other traffic has gone out,
    a line has been printed, the clock has moved. *)
Definition later_world (i : Response) : World :=
  {| server := fun _ _ => Return i;
     network := [("haproxy.old.BACKEND.bout:1|g", ("127.0.0.1", 8125))];
     stdout := ["11:59:50 - Reported 13 stats"];
     clock := "23:59:59" |}.

(* ===================================================================== *)
(** ** The main block: namespace and polling loop *)
(* ===================================================================== *)

(** [old in s] for byte strings: [old] occurs in [s] at some place. *)
Fixpoint str_contains (s old : string) : bool :=
  startswith s old
  || match s with
     | EmptyString => false
     | String _ more => str_contains more old
     end.

(** [s.replace(old, new)] for a non-empty [old]: the occurrences of [old]
    are replaced left to right, none overlapping another. [skip] counts the
    bytes of an occurrence just replaced that are still to be passed
    over. *)
Fixpoint replace_from (skip : nat) (s old new : string) : string :=
  match s with
  | EmptyString => EmptyString
  | String c more =>
      match skip with
      | S k => replace_from k more old new
      | O =>
          if startswith s old
          then new +:+ replace_from (String.length old - 1) more old new
          else String c (replace_from O more old new)
      end
  end.

Definition str_replace (s old new : string) : string :=
  replace_from O s old new.

(** The token the namespace setting may hold for the host name. *)
Definition HOSTNAME : string := "(HOSTNAME)".

(** The namespace the loop uses: the setting, with the token replaced by
    what [socket.gethostname()] answers when the token occurs. *)
Definition resolve_namespace (namespace hostname : string) : string :=
  if str_contains namespace HOSTNAME
  then str_replace namespace HOSTNAME hostname
  else namespace.

(** How the main block stands after a turn of its loop: the interpreter has
    left with an exit code, an exception has reached the top level, or the
    script sleeps until the next turn. *)
Inductive Status : Type :=
| Exited (code : Z)
| Uncaught (e : exn)
| Asleep.

(** One turn of [while True]: a pass, then [exit(0)] under [--test] and
    [time.sleep(sleep)] otherwise. [exit] raises [SystemExit], which the
    handler for [KeyboardInterrupt] lets through. *)
Definition turn (conf : Conf) (namespace : string) (test : bool) (w : World)
  : Status * World :=
  match cycle conf namespace w with
  | (Raise e, w') => (Uncaught e, w')
  | (Return _, w') => if test then (Exited 0, w') else (Asleep, w')
  end.

(** What the script finds when it wakes up: the answers of the stats source
    and the clock may have changed; what was sent and printed stays. *)
Definition wake (w : World)
  (env : (string -> option Auth -> Exc Response) * string) : World :=
  {| server := fst env; network := network w; stdout := stdout w;
     clock := snd env |}.

(** The loop over the wake-ups in [wakes], one per sleep; when they are used
    up the script is still asleep. An interrupt from the keyboard is
    outside this model. *)
Fixpoint main_loop (conf : Conf) (namespace : string) (test : bool)
  (wakes : list ((string -> option Auth -> Exc Response) * string)) (w : World)
  : Status * World :=
  match turn conf namespace test w with
  | (Asleep, w') =>
      match wakes with
      | [] => (Asleep, w')
      | env :: more => main_loop conf namespace test more (wake w' env)
      end
  | r => r
  end.

(* ===================================================================== *)
(** ** Reference definitions for further properties *)
(* ===================================================================== *)

(** A parser that waits for a field or is inside an unquoted one. *)
Definition ready (self : Csv.Reader) : Prop :=
  Csv.state self = Csv.START_FIELD \/ Csv.state self = Csv.IN_FIELD.

(** Two rows agree on every column the metric loop reads. *)
Definition agree (r1 r2 : Row) : Prop :=
  forall key : string,
    key ∈ "pxname" :: "svname" :: stats -> cols r1 !! key = cols r2 !! key.

(** A byte that does not break a line. *)
Definition unbroken_char (c : ascii) : bool := negb (eqc c LF || eqc c CR).

Fixpoint unbroken (s : string) : bool :=
  match s with
  | EmptyString => true
  | String c more => unbroken_char c && unbroken more
  end.

(** The lines [ls], each followed by the line end [eol]. *)
Fixpoint unlines (eol : string) (ls : list string) : string :=
  match ls with
  | [] => EmptyString
  | l :: more => l +:+ eol +:+ unlines eol more
  end.


(** A plain byte that is not the delimiter either. *)
Definition field_char (c : ascii) : bool := plain_char c && negb (eqc c COMMA).

Fixpoint all_field (s : string) : bool :=
  match s with
  | EmptyString => true
  | String c more => field_char c && all_field more
  end.

(* ===================================================================== *)
(** ** Lemmas on the world and the emit loop *)
(* ===================================================================== *)

Lemma add_net_nil (w : World) : add_net w [] = w.
Proof. destruct w; unfold add_net; simpl. by rewrite app_nil_r. Qed.

Lemma add_net_app (w : World) (a b : list Datagram) :
  add_net (add_net w a) b = add_net w (a ++ b).
Proof. unfold add_net; simpl. by rewrite app_assoc. Qed.




Lemma sends_complete (l : list Datagram) :
  snd (sends l) = None -> fst (sends l) = l.
Proof.
  induction l as [|dg l IH]; [done|].
  cbn [sends]. destruct (sendto_error (fst dg) (snd dg)); [done|].
  destruct (sends l) as [s r]. cbn [fst snd] in *. intros Hr. by rewrite IH.
Qed.


Lemma for_list_report_stat host port name row (l : list string) (c : Z) (w : World) :
  for_list l (report_stat host port name row) c w
  = (match snd (sends (row_datagrams host port name row l)) with
     | None => Return (c + Z.of_nat (length l))
     | Some e => Raise e
     end,
     add_net w (fst (sends (row_datagrams host port name row l)))).
Proof.
  revert c w. induction l as [|data l IH]; intros c w.
  - simpl. by rewrite Z.add_0_r, add_net_nil.
  - cbn [for_list]. unfold bind at 1.
    unfold report_stat at 1. unfold bind, sendto, ret.
    change (row_datagrams host port name row (data :: l))
      with ((payload name data (metric_value row data), (host, port))
            :: row_datagrams host port name row l).
    cbn [sends fst snd]. fold (metric_value row data).
    destruct (sendto_error (payload name data (metric_value row data)) (host, port))
      as [e|]; [by rewrite add_net_nil|].
    rewrite IH.
    destruct (sends (row_datagrams host port name row l)) as [s r]. cbn [fst snd].
    f_equal.
    + destruct r; [done|]. f_equal. rewrite length_cons. lia.
    + unfold add_net; simpl. by rewrite <- app_assoc.
Qed.

Lemma report_row_run host port namespace row (c : Z) (w : World) :
  report_row host port namespace row c w
  = match row_name namespace row with
    | Raise e => (Raise e, w)
    | Return name =>
        (match snd (sends (row_datagrams host port name row stats)) with
         | None => Return (c + Z.of_nat (length stats))
         | Some e => Raise e
         end,
         add_net w (fst (sends (row_datagrams host port name row stats))))
    end.
Proof.
  unfold report_row, row_name, bind, liftE.
  destruct (getitem row "pxname") as [e|pxname]; [reflexivity|]. cbv beta iota.
  destruct (getitem row "svname") as [e|svname]; [reflexivity|]. cbv beta iota.
  unfold bindE at 1 2.
  destruct (str_join "." [VStr namespace; pxname; svname]) as [e|name];
    [reflexivity|].
  apply for_list_report_stat.
Qed.

Lemma for_iter_report_row host port namespace (it : Iter Row) (c : Z) (w : World) :
  for_iter it (report_row host port namespace) c w
  = (fst (emit_run host port namespace it c),
     add_net w (snd (emit_run host port namespace it c))).
Proof.
  revert c w. induction it as [|e|row more IH]; intros c w.
  - simpl. by rewrite add_net_nil.
  - simpl. by rewrite add_net_nil.
  - cbn [for_iter emit_run]. unfold bind at 1. rewrite report_row_run.
    destruct (row_name namespace row) as [e|name].
    + simpl. by rewrite add_net_nil.
    + destruct (sends (row_datagrams host port name row stats)) as [s [e|]];
        cbn [fst snd]; [reflexivity|].
      rewrite IH.
      destruct (emit_run host port namespace more (c + Z.of_nat (length stats)))
        as [r l]. simpl. by rewrite add_net_app.
Qed.

(** [push_to_statsd] changes the world by the datagrams of [emit_run] and
    nothing else. *)
Lemma push_to_statsd_run (it : Iter Row) host port namespace (w : World) :
  push_to_statsd it host port namespace w
  = (fst (emit_run host port namespace it 0),
     add_net w (snd (emit_run host port namespace it 0))).
Proof.
  unfold push_to_statsd, bind. rewrite for_iter_report_row.
  by destruct (fst (emit_run host port namespace it 0)).
Qed.


(** A name column that holds [None], as a line cut short leaves it, makes
    the join raise. *)
Lemma row_name_None namespace row pxname :
  cols row !! "pxname" = Some (VStr pxname) ->
  cols row !! "svname" = Some VNone ->
  row_name namespace row
  = Raise (TypeError "sequence item 2: expected string, NoneType found").
Proof.
  intros Hp Hs. unfold row_name, getitem. rewrite Hp, Hs. reflexivity.
Qed.

(* ===================================================================== *)
(** ** Lemmas on byte strings *)
(* ===================================================================== *)

Lemma len_nonneg (s : string) : 0 <= len s.
Proof. induction s as [|c s IH]; simpl len; lia. Qed.

Lemma lstrip_fixed (s chars : string) :
  match s with
  | EmptyString => True
  | String c _ => mem c chars = false
  end ->
  lstrip s chars = s.
Proof. destruct s as [|c s]; simpl; [done|]. by intros ->. Qed.

Lemma lstrip_head (s chars : string) :
  match lstrip s chars with
  | EmptyString => True
  | String c _ => mem c chars = false
  end.
Proof.
  induction s as [|c s IH]; simpl; [done|].
  destruct (mem c chars) eqn:Hc; [done|]. exact Hc.
Qed.

Lemma lstrip_idempotent (s chars : string) :
  lstrip (lstrip s chars) chars = lstrip s chars.
Proof. apply lstrip_fixed, lstrip_head. Qed.

Lemma lstrip_marker (text : string) :
  lstrip (String "#" (String " " text)) "# " = lstrip text "# ".
Proof. reflexivity. Qed.

(* ===================================================================== *)
(** ** Lemmas on the csv reader: lines without quoting *)
(* ===================================================================== *)

(** The reader's run is [Reader_iternext] called again and again on the
    lines it left. *)
Lemma reader_from_loop (d : Csv.Dialect) (self : Csv.Reader) (input : list string) :
  Csv.reader_from d self input
  = match Csv.Reader_loop d self input with
    | Raise e => Fail e
    | Return None => Stop
    | Return (Some (record, more)) =>
        Yield record (Csv.reader_from d Csv.parse_reset more)
    end.
Proof.
  revert self. induction input as [|line input IH]; intros self.
  - cbn [Csv.reader_from Csv.Reader_loop].
    destruct (Csv.end_of_input d self) as [e|[fs|]]; reflexivity.
  - cbn [Csv.reader_from Csv.Reader_loop].
    destruct (Csv.parse_line d self line) as [e|self1]; [reflexivity|].
    cbn [bindE].
    destruct (Csv.parse_process_char d self1 NUL) as [e|self2]; [reflexivity|].
    cbn [bindE].
    destruct (Csv.is_START_RECORD (Csv.state self2)); [reflexivity | apply IH].
Qed.

Lemma reader_unfold (input : list string) (d : Csv.Dialect) :
  Csv.reader input d
  = match Csv.Reader_iternext d input with
    | Raise e => Fail e
    | Return None => Stop
    | Return (Some (record, more)) => Yield record (Csv.reader more d)
    end.
Proof. apply reader_from_loop. Qed.

Section PlainLines.

Import Csv.

Lemma plain_char_inv (c : ascii) :
  plain_char c = true ->
  eqc c NUL = false /\ eqc c LF = false /\ eqc c CR = false /\ eqc c DQUOTE = false.
Proof.
  unfold plain_char. intros H. apply negb_true_iff in H.
  repeat (apply orb_false_iff in H; destruct H as [H ?]). auto.
Qed.

(** From a parser that waits for a field or is inside an unquoted one, a
    plain text followed by the end of the line saves the comma-separated
    fields and returns to [START_RECORD]. *)
Lemma parse_plain_text (s : string) (self : Reader) :
  (state self = START_FIELD /\ field self = EmptyString) \/ state self = IN_FIELD ->
  0 <= field_len self ->
  field_len self + len s <= field_limit ->
  all_plain s = true ->
  (self1 <-- parse_line excel self s ;; parse_process_char excel self1 NUL)
  = Return {| fields := fields self ++ split_from (field self) COMMA s;
              state := START_RECORD; field := EmptyString; field_len := 0 |}.
Proof.
  revert self. induction s as [|c s IH]; intros self Hst Hlen Hlim Hplain.
  - cbn [parse_line bindE split_from]. unfold parse_process_char.
    destruct Hst as [[-> _]| ->]; reflexivity.
  - cbn [all_plain] in Hplain. apply andb_true_iff in Hplain as [Hc Hs].
    destruct (plain_char_inv c Hc) as (Hnul & Hlf & Hcr & Hdq).
    cbn [len] in Hlim. pose proof (len_nonneg s) as Hs0.
    cbn [parse_line split_from]. rewrite Hnul.
    assert (Hadd : parse_add_char self c
                   = Return {| fields := fields self; state := state self;
                               field := snoc (field self) c;
                               field_len := field_len self + 1 |}).
    { unfold parse_add_char.
      destruct (Z.leb_spec field_limit (field_len self)); [lia | done]. }
    assert (Hstep : parse_process_char excel self c
                    = Return (if eqc c COMMA
                              then set_state (parse_save_field self) START_FIELD
                              else {| fields := fields self; state := IN_FIELD;
                                      field := snoc (field self) c;
                                      field_len := field_len self + 1 |})).
    { unfold parse_process_char, start_field, is_eol.
      destruct Hst as [[Hst _]|Hst]; rewrite Hst;
        cbn [excel quotechar escapechar delimiter skipinitialspace quoting
             is_QUOTE_NONE negb];
        rewrite ?Hnul, ?Hlf, ?Hcr, ?Hdq; cbn [orb andb];
        rewrite ?andb_false_r; destruct (eqc c COMMA); try reflexivity;
        rewrite ?Hadd; unfold parse_save_field, set_state; cbn [bindE fields
          state field field_len]; rewrite ?Hst; reflexivity. }
    rewrite Hstep. cbn [bindE].
    destruct (eqc c COMMA) eqn:Hcomma.
    + rewrite IH; [| left; done | simpl; lia | simpl; lia | done].
      cbn [set_state parse_save_field fields field].
      by rewrite <- app_assoc.
    + rewrite IH; [| right; done | simpl; lia | simpl; lia | done].
      reflexivity.
Qed.

(** A whole plain line read by a fresh parser. *)
Lemma parse_plain_line (line : string) :
  plain_line line = true ->
  (self1 <-- parse_line excel parse_reset line ;;
   parse_process_char excel self1 NUL)
  = Return {| fields := record_of_line line; state := START_RECORD;
              field := EmptyString; field_len := 0 |}.
Proof.
  unfold plain_line. intros H. apply andb_true_iff in H as [Hplain Hlen].
  apply Z.leb_le in Hlen.
  destruct line as [|c s]; [reflexivity|].
  pose proof (parse_plain_text (String c s) (set_state parse_reset START_FIELD))
    as Hrun.
  cbn [set_state parse_reset state field field_len fields] in Hrun.
  specialize (Hrun (or_introl (conj eq_refl eq_refl)) ltac:(lia) ltac:(lia) Hplain).
  cbn [all_plain] in Hplain. apply andb_true_iff in Hplain as [Hc _].
  destruct (plain_char_inv c Hc) as (Hnul & Hlf & Hcr & _).
  assert (Hfirst : parse_process_char excel parse_reset c
                   = parse_process_char excel (set_state parse_reset START_FIELD) c).
  { unfold parse_process_char. cbn [parse_reset set_state state].
    by rewrite Hnul, Hlf, Hcr. }
  etransitivity; [| exact Hrun].
  cbn [parse_line]. by rewrite Hfirst.
Qed.

Lemma reader_plain (input : list string) :
  Forall (fun line => plain_line line = true) input ->
  reader input excel = iter (map record_of_line input).
Proof.
  unfold reader. induction 1 as [|line input Hline _ IH]; [reflexivity|].
  cbn [reader_from map iter]. rewrite (parse_plain_line line Hline).
  cbn [state is_START_RECORD fields]. by rewrite IH.
Qed.

End PlainLines.

(* ===================================================================== *)
(** ** Lemmas on DictReader *)
(* ===================================================================== *)

Section Rows.

Import DictReaderImpl.

Lemma split_from_cons (cur : string) (sep : ascii) (s : string) :
  exists f fs, split_from cur sep s = f :: fs.
Proof.
  revert cur. induction s as [|c s IH]; intros cur; simpl; [by eauto|].
  destruct (eqc c sep); [by eauto | apply IH].
Qed.

Lemma rows_of_plain (fieldnames : list string) (data : list string) :
  rows_of fieldnames (iter (map record_of_line data))
  = iter (map (fun line => make_row fieldnames (split line COMMA))
              (List.filter nonblank data)).
Proof.
  induction data as [|line data IH]; [reflexivity|].
  destruct line as [|c s].
  - cbn [map iter rows_of record_of_line List.filter nonblank]. exact IH.
  - cbn [map iter List.filter nonblank]. rewrite <- IH.
    unfold record_of_line at 1, split.
    destruct (split_from_cons EmptyString COMMA (String c s)) as (f & fs & ->).
    reflexivity.
Qed.

Lemma DictReader_plain (header : string) (data : list string) :
  Forall (fun line => plain_line line = true) (header :: data) ->
  DictReader (header :: data)
  = iter (map (fun line => make_row (record_of_line header) (split line COMMA))
              (List.filter nonblank data)).
Proof.
  intros Hplain. unfold DictReader. rewrite (reader_plain _ Hplain).
  cbn [map iter]. apply rows_of_plain.
Qed.

Lemma filter_nonblank_id (data : list string) :
  Forall (fun line => nonblank line = true) data ->
  List.filter nonblank data = data.
Proof.
  induction 1 as [|line data Hline _ IH]; [reflexivity|].
  cbn [List.filter]. by rewrite Hline, IH.
Qed.

(** Pairs inserted left to right do not reach a key that is not among
    them. *)
Lemma foldl_zip_notin (ks vs : list string) (d : gmap string value) (k : string) :
  k ∉ ks ->
  foldl (fun d kv => <[fst kv := VStr (snd kv)]> d) d (zip ks vs) !! k = d !! k.
Proof.
  revert vs d. induction ks as [|k' ks IH]; intros vs d Hk; [reflexivity|].
  destruct vs as [|v vs]; [reflexivity|].
  apply not_elem_of_cons in Hk as [Hne Hk].
  cbn [zip zip_with foldl fst snd]. rewrite IH by done.
  by rewrite lookup_insert_ne.
Qed.

(** With distinct column names, each name is mapped to the value at its
    own position. *)
Lemma foldl_zip_lookup (ks vs : list string) (d : gmap string value)
  (j : nat) (k v : string) :
  NoDup ks -> ks !! j = Some k -> vs !! j = Some v ->
  foldl (fun d kv => <[fst kv := VStr (snd kv)]> d) d (zip ks vs) !! k
  = Some (VStr v).
Proof.
  revert vs d j. induction ks as [|k' ks IH]; intros vs d j Hnd Hk Hv; [done|].
  destruct vs as [|v' vs]; [done|].
  apply NoDup_cons in Hnd as [Hnotin Hnd].
  cbn [zip zip_with foldl fst snd].
  destruct j as [|j]; simpl in Hk, Hv.
  - simplify_eq. rewrite foldl_zip_notin by done. apply lookup_insert_eq.
  - by apply (IH vs _ j).
Qed.

Lemma dict_zip_lookup (ks vs : list string) (j : nat) (k v : string) :
  NoDup ks -> ks !! j = Some k -> vs !! j = Some v ->
  dict_zip ks vs !! k = Some (VStr v).
Proof. apply foldl_zip_lookup. Qed.

Lemma fill_restval_notin (keys : list string) (restval : value)
  (d : gmap string value) (k : string) :
  k ∉ keys -> fill_restval keys restval d !! k = d !! k.
Proof.
  unfold fill_restval. revert d.
  induction keys as [|k' keys IH]; intros d Hk; [reflexivity|].
  apply not_elem_of_cons in Hk as [Hne Hk]. cbn [foldl].
  rewrite IH by done. by rewrite lookup_insert_ne.
Qed.

Lemma fill_restval_lookup (keys : list string) (restval : value)
  (d : gmap string value) (k : string) :
  k ∈ keys -> fill_restval keys restval d !! k = Some restval.
Proof.
  revert d. induction keys as [|k' keys IH]; intros d Hk;
    [by apply elem_of_nil in Hk|].
  destruct (decide (k ∈ keys)) as [Hin|Hnotin]; [by apply IH|].
  apply elem_of_cons in Hk as [->|Hk]; [|done].
  change (fill_restval (k' :: keys) restval d)
    with (fill_restval keys restval (<[k' := restval]> d)).
  rewrite fill_restval_notin by done. apply lookup_insert_eq.
Qed.

Lemma make_row_cols_full (fieldnames row : list string) :
  (length fieldnames <= length row)%nat ->
  cols (make_row fieldnames row) = dict_zip fieldnames row.
Proof.
  intros Hle. unfold make_row.
  destruct (Nat.ltb_spec (length fieldnames) (length row)); [reflexivity|].
  destruct (Nat.ltb_spec (length row) (length fieldnames)); [lia | reflexivity].
Qed.

Lemma make_row_short (fieldnames row : list string) (j : nat) (k : string) :
  (length row <= j)%nat -> fieldnames !! j = Some k ->
  cols (make_row fieldnames row) !! k = Some VNone
  /\ rest (make_row fieldnames row) = None.
Proof.
  intros Hj Hk. pose proof (lookup_lt_Some _ _ _ Hk) as Hlt. unfold make_row.
  destruct (Nat.ltb_spec (length fieldnames) (length row)); [lia|].
  destruct (Nat.ltb_spec (length row) (length fieldnames)); [|lia].
  split; [|reflexivity]. cbn [cols]. apply fill_restval_lookup.
  apply list_elem_of_lookup. exists (j - length row)%nat.
  rewrite lookup_drop. rewrite <- Hk. f_equal. lia.
Qed.

Lemma make_row_long (fieldnames row : list string) :
  (length fieldnames < length row)%nat ->
  rest (make_row fieldnames row) = Some (drop (length fieldnames) row)
  /\ cols (make_row fieldnames row) = dict_zip fieldnames row.
Proof.
  intros Hlt. unfold make_row.
  destruct (Nat.ltb_spec (length fieldnames) (length row)); [done | lia].
Qed.

End Rows.

(* ===================================================================== *)
(** ** Lemmas on the fetch stage and on a whole pass *)
(* ===================================================================== *)

Lemma get_ha_stats_run (url : string) (user password : value) (w : World) :
  get_ha_stats url user password w
  = (fetch_result (server w url (auth_of user password)), w).
Proof.
  unfold get_ha_stats, fetch_result, bind, requests_get, liftE, ret, auth_of.
  destruct (server w url _) as [e|i]; [reflexivity|]. cbn [bindE].
  destruct (raise_for_status i) as [e|[]]; reflexivity.
Qed.

Lemma cycle_run (conf : Conf) (namespace : string) (w : World) :
  cycle conf namespace w
  = match fetch_result (server w (ha_url conf)
                          (auth_of (VStr (ha_user conf)) (VStr (ha_pass conf)))) with
    | Raise e => (Raise e, w)
    | Return it =>
        let '(r, l) := emit_run (statsd_host conf) (statsd_port conf) namespace it 0 in
        match r with
        | Raise e => (Raise e, add_net w l)
        | Return n =>
            (Return n, add_out (add_net w l) (report_line (clock w) n))
        end
    end.
Proof.
  unfold cycle. unfold bind at 1. rewrite get_ha_stats_run.
  destruct (fetch_result _) as [e|it]; [reflexivity|].
  unfold bind at 1. rewrite push_to_statsd_run.
  destruct (emit_run _ _ _ it 0) as [[e|n] l]; reflexivity.
Qed.

(* ===================================================================== *)
(** ** Lemmas on lists of datagrams *)
(* ===================================================================== *)

Lemma append_assoc (a b c : string) : (a +:+ b) +:+ c = a +:+ (b +:+ c).
Proof.
  induction a as [|x a IH]; [reflexivity|].
  change (String x ((a +:+ b) +:+ c) = String x (a +:+ (b +:+ c))).
  by rewrite IH.
Qed.


Lemma length_row_datagrams host port name row (l : list string) :
  length (row_datagrams host port name row l) = length l.
Proof. apply length_map. Qed.









(* ===================================================================== *)
(** ** The emit stage: claims C1, C2, C3, C8, C10 *)
(* ===================================================================== *)










(* ===================================================================== *)
(** ** The fetch stage: claims C4, C5, C6, C7 *)
(* ===================================================================== *)

Lemma lstrip_split (s chars : string) :
  exists removed : string,
    s = removed +:+ lstrip s chars /\ all_in chars removed = true.
Proof.
  induction s as [|c s (removed & Heq & Hall)].
  - by exists EmptyString.
  - cbn [lstrip]. destruct (mem c chars) eqn:Hc.
    + exists (String c removed). split.
      * change (String c s = String c (removed +:+ lstrip s chars)). by f_equal.
      * cbn [all_in]. by rewrite Hc, Hall.
    + by exists EmptyString.
Qed.

(** C5, counterexample: at a body that starts with [#] and no space the
    marker is absent, yet
    the strip of the code removes the [#], where a strip of exactly the
    marker leaves the body alone; and at a body that starts with two
    markers the code removes both. The lines handed to the parser differ
    accordingly. *)
Lemma C5_counterexample :
  startswith unmarked_body "# " = false
  /\ strip_marker unmarked_body = unmarked_body
  /\ lstrip unmarked_body "# " <> unmarked_body
  /\ lines_of unmarked_body = ["pxname,svname"; "web,FRONTEND"]
  /\ splitlines (strip_marker unmarked_body) = ["#pxname,svname"; "web,FRONTEND"]
  /\ lstrip "# # pxname,svname" "# " = "pxname,svname"
  /\ strip_marker "# # pxname,svname" = "# pxname,svname".
Proof. repeat split; try reflexivity. vm_compute. discriminate. Qed.

(** C5, amended: the strip removes the longest leading run of [#] and space
    bytes of the body, whatever their order and number. It removes exactly
    the marker when the text after the marker starts with neither byte, it
    leaves a body alone that is empty or starts with neither byte, it is
    idempotent, and a body with the leading marker and the same body
    without it give the parser the same lines. *)
Theorem C5_strip_leading_run (body : string) :
  (exists removed : string,
      body = removed +:+ lstrip body "# " /\ all_in "# " removed = true)
  /\ match lstrip body "# " with
     | EmptyString => True
     | String c _ => c <> "#"%char /\ c <> " "%char
     end
  /\ (match body with
      | EmptyString => True
      | String c _ => c <> "#"%char /\ c <> " "%char
      end ->
      lstrip body "# " = body
      /\ lstrip (String "#" (String " " body)) "# " = body
      /\ lstrip (String "#" (String " " body)) "# "
         = strip_marker (String "#" (String " " body)))
  /\ lstrip (lstrip body "# ") "# " = lstrip body "# "
  /\ lines_of (String "#" (String " " body)) = lines_of body.
Proof.
  assert (Hmem : forall c, mem c "# " = false <-> c <> "#"%char /\ c <> " "%char).
  { intros c. cbn [mem]. rewrite orb_false_r, orb_false_iff.
    unfold eqc. by rewrite !Ascii.eqb_neq. }
  split; [apply lstrip_split|].
  split.
  { pose proof (lstrip_head body "# ") as H.
    destruct (lstrip body "# "); [done | by apply Hmem]. }
  split.
  { intros Hhead.
    assert (Hfix : lstrip body "# " = body).
    { apply lstrip_fixed. destruct body; [done | by apply Hmem]. }
    by rewrite lstrip_marker, Hfix. }
  split; [apply lstrip_idempotent|].
  unfold lines_of. by rewrite lstrip_marker.
Qed.

(** C5 at a concrete input: a header without and with the marker. *)
Lemma C5_witness :
  lstrip "pxname,svname" "# " = "pxname,svname"
  /\ lstrip "# pxname,svname" "# " = "pxname,svname"
  /\ lstrip "# pxname,svname" "# " = strip_marker "# pxname,svname".
Proof.
  apply (proj1 (proj2 (proj2 (C5_strip_leading_run "pxname,svname")))).
  split; discriminate.
Defined.

(** C6, amended: when the status of the response is in the client or the
    server error class, 400 to 599, [get_ha_stats] raises [HTTPError]
    whatever the body holds, the pass ends with that exception, and the
    world is as before: no datagram is sent and nothing is printed. *)
Theorem C6_error_status_aborts (conf : Conf) (namespace : string) (w : World)
  (i : Response) :
  server w (ha_url conf) (auth_of (VStr (ha_user conf)) (VStr (ha_pass conf)))
  = Return i ->
  400 <= status_code i < 600 ->
  get_ha_stats (ha_url conf) (VStr (ha_user conf)) (VStr (ha_pass conf)) w
  = (Raise (HTTPError (status_code i)), w)
  /\ cycle conf namespace w = (Raise (HTTPError (status_code i)), w)
  /\ network (snd (cycle conf namespace w)) = network w.
Proof.
  intros Hget Hstatus.
  assert (Hfetch : fetch_result (Return i) = Raise (HTTPError (status_code i))).
  { unfold fetch_result, raise_for_status. cbn [bindE].
    destruct (Z.leb_spec 400 (status_code i)); [|lia].
    destruct (Z.ltb_spec (status_code i) 600); [reflexivity | lia]. }
  rewrite cycle_run, get_ha_stats_run, Hget, Hfetch. done.
Qed.

(** What [get_ha_stats] returns for a successful response whose lines carry
    no quoting: the header line names the columns and every data line that
    is not blank gives one row, in order. *)
Lemma get_ha_stats_plain (url : string) (user password : value) (w : World)
  (i : Response) (header : string) (data : list string) :
  server w url (auth_of user password) = Return i ->
  raise_for_status i = Return tt ->
  lines_of (content i) = header :: data ->
  Forall (fun line => plain_line line = true) (header :: data) ->
  get_ha_stats url user password w
  = (Return (iter (map (fun line => DictReaderImpl.make_row (record_of_line header)
                                      (split line COMMA))
                       (List.filter nonblank data))), w).
Proof.
  intros Hget Hok Hlines Hplain.
  rewrite get_ha_stats_run, Hget. unfold fetch_result. cbn [bindE].
  rewrite Hok. cbn [bindE]. by rewrite Hlines, DictReader_plain.
Qed.

(** C4, counterexample: the quoted field of [quoted_body] spans two of its
    three lines: the
    fetch yields one row where the claim counts two, and the value of that
    row's first column has lost the line break it held. The blank line of
    [blank_line_body] gives no row either: three lines after the header,
    two rows. *)
Lemma C4_counterexample :
  length (lines_of quoted_body) = 3%nat
  /\ (exists row : Row,
        fst (get_ha_stats (ha_url sample_conf) VNone VNone
               (world_of (mkResponse 200 quoted_body) "12:00:00"))
        = Return (iter [row])
        /\ length [row] <> (length (lines_of quoted_body) - 1)%nat
        /\ cols row !! "pxname" = Some (VStr "web"))
  /\ length (lines_of blank_line_body) = 4%nat
  /\ (exists rows : list Row,
        fst (get_ha_stats (ha_url sample_conf) VNone VNone
               (world_of (mkResponse 200 blank_line_body) "12:00:00"))
        = Return (iter rows)
        /\ length rows = 2%nat).
Proof.
  split; [reflexivity|]. split.
  - eexists. split; [vm_compute; reflexivity|].
    split; [vm_compute; discriminate | vm_compute; reflexivity].
  - split; [reflexivity|]. eexists [_; _].
    split; [vm_compute; reflexivity | reflexivity].
Qed.

(** C4, amended: for a successful response whose lines, after the strip,
    hold no double quote and no NUL byte and are at most 131072 bytes long,
    whose data lines are not blank and have at least as many columns as the
    header, and whose header names are distinct, [get_ha_stats] yields
    exactly one row per data line, the number of lines minus one, in the
    order of the lines, and each row maps each header name to the value at
    the same position of its line. *)
Theorem C4_rows_of_plain_body (url : string) (user password : value) (w : World)
  (i : Response) (header : string) (data : list string) :
  server w url (auth_of user password) = Return i ->
  raise_for_status i = Return tt ->
  lines_of (content i) = header :: data ->
  Forall (fun line => plain_line line = true) (header :: data) ->
  Forall (fun line => nonblank line = true) data ->
  NoDup (record_of_line header) ->
  Forall (fun line => (length (record_of_line header)
                       <= length (split line COMMA))%nat) data ->
  exists rows : list Row,
    get_ha_stats url user password w = (Return (iter rows), w)
    /\ length rows = (length (lines_of (content i)) - 1)%nat
    /\ forall (n : nat) (line : string),
         data !! n = Some line ->
         exists row : Row,
           rows !! n = Some row
           /\ forall (j : nat) (name v : string),
                record_of_line header !! j = Some name ->
                split line COMMA !! j = Some v ->
                cols row !! name = Some (VStr v).
Proof.
  intros Hget Hok Hlines Hplain Hnonblank Hnodup Hwidth.
  exists (map (fun line => DictReaderImpl.make_row (record_of_line header)
                             (split line COMMA)) data).
  split; [| split].
  - rewrite (get_ha_stats_plain url user password w i header data) by done.
    by rewrite filter_nonblank_id.
  - rewrite Hlines, length_map, length_cons. lia.
  - intros n line Hline. eexists. split.
    + rewrite list_lookup_fmap, Hline. reflexivity.
    + intros j name v Hname Hv.
      rewrite make_row_cols_full.
      * by apply (dict_zip_lookup _ _ j).
      * by apply (Forall_lookup_1 _ _ _ _ Hwidth Hline).
Qed.

(** C4 at a concrete input: the plain sample body. *)
Lemma C4_witness :
  exists rows : list Row,
    get_ha_stats (ha_url sample_conf) VNone VNone
      (world_of (mkResponse 200 plain_body) "12:00:00")
    = (Return (iter rows), world_of (mkResponse 200 plain_body) "12:00:00")
    /\ length rows = 2%nat
    /\ exists row : Row,
         rows !! 1%nat = Some row /\ cols row !! "bin" = Some (VStr "512").
Proof.
  destruct (C4_rows_of_plain_body (ha_url sample_conf) VNone VNone
              (world_of (mkResponse 200 plain_body) "12:00:00")
              (mkResponse 200 plain_body)
              "pxname,svname,qcur,bin" ["web,FRONTEND,,4096"; "web,BACKEND,2,512"])
    as (rows & Hrun & Hlen & Hmap).
  - reflexivity.
  - reflexivity.
  - vm_compute; reflexivity.
  - repeat constructor.
  - repeat constructor.
  - apply (bool_decide_unpack (NoDup ["pxname"; "svname"; "qcur"; "bin"])).
    vm_compute. exact I.
  - repeat constructor; vm_compute; lia.
  - exists rows. split; [exact Hrun|]. split; [exact Hlen|].
    destruct (Hmap 1%nat "web,BACKEND,2,512" eq_refl) as (row & Hrow & Hcols).
    exists row. split; [exact Hrow|].
    apply (Hcols 3%nat "bin" "512"); vm_compute; reflexivity.
Defined.

(** C7, amended: a data line whose column count differs from the header's
    is no parse error. For a successful response whose lines hold no double
    quote and no NUL byte and are at most 131072 bytes long, the fetch does
    not fail; it yields no row for a blank data line and one row for every
    data line that is not blank. Such a line with fewer columns than the
    header gives a row that holds [None] under each header name it does not
    reach, and one with more columns gives a row that pairs the header
    names with its leading values and keeps the surplus values as a list
    under the key [None]. *)
Theorem C7_ragged_rows_are_kept (url : string) (user password : value)
  (w : World) (i : Response) (header : string) (data : list string) :
  server w url (auth_of user password) = Return i ->
  raise_for_status i = Return tt ->
  lines_of (content i) = header :: data ->
  Forall (fun line => plain_line line = true) (header :: data) ->
  exists rows : list Row,
    get_ha_stats url user password w = (Return (iter rows), w)
    /\ failure (iter rows) = None
    /\ length rows = length (List.filter nonblank data)
    /\ forall line : string,
         line ∈ data -> nonblank line = true ->
         let fieldnames := record_of_line header in
         let values := split line COMMA in
         let row := DictReaderImpl.make_row fieldnames values in
         row ∈ rows
         /\ ((length values < length fieldnames)%nat ->
             rest row = None
             /\ forall (j : nat) (name : string),
                  (length values <= j)%nat -> fieldnames !! j = Some name ->
                  cols row !! name = Some VNone)
         /\ ((length fieldnames < length values)%nat ->
             rest row = Some (drop (length fieldnames) values)
             /\ cols row = DictReaderImpl.dict_zip fieldnames values).
Proof.
  intros Hget Hok Hlines Hplain.
  eexists. split; [by apply (get_ha_stats_plain url user password w i header data)|].
  split.
  { generalize (map (fun line => DictReaderImpl.make_row (record_of_line header)
                                   (split line COMMA))
                    (List.filter nonblank data)).
    intros l. induction l as [|r l IH]; [reflexivity | exact IH]. }
  split; [by rewrite length_map|].
  intros line Hline Hnb. cbv zeta. split; [| split].
  - apply list_elem_of_In, in_map_iff. exists line. split; [reflexivity|].
    apply filter_In. by rewrite <- list_elem_of_In.
  - intros Hshort. split.
    + unfold DictReaderImpl.make_row.
      destruct (Nat.ltb_spec (length (record_of_line header))
                  (length (split line COMMA))); [lia|].
      by destruct (Nat.ltb (length (split line COMMA))
                     (length (record_of_line header))).
    + intros j name Hj Hname. by apply (make_row_short _ _ j).
  - intros Hlong. by apply make_row_long.
Qed.

(** C7 at a concrete input: the ragged sample body. *)
Lemma C7_witness :
  exists rows : list Row,
    get_ha_stats (ha_url sample_conf) VNone VNone
      (world_of (mkResponse 200 ragged_body) "12:00:00")
    = (Return (iter rows), world_of (mkResponse 200 ragged_body) "12:00:00")
    /\ DictReaderImpl.make_row ["pxname"; "svname"; "qcur"] ["web"; "BACKEND"]
       ∈ rows
    /\ cols (DictReaderImpl.make_row ["pxname"; "svname"; "qcur"]
               ["web"; "BACKEND"]) !! "qcur" = Some VNone.
Proof.
  destruct (C7_ragged_rows_are_kept (ha_url sample_conf) VNone VNone
              (world_of (mkResponse 200 ragged_body) "12:00:00")
              (mkResponse 200 ragged_body) "pxname,svname,qcur"
              ["web,FRONTEND,1"; "web,BACKEND"; "web,srv1,0,9,8"])
    as (rows & Hrun & _ & _ & Hrows).
  - reflexivity.
  - reflexivity.
  - vm_compute; reflexivity.
  - repeat constructor.
  - exists rows. split; [exact Hrun|].
    destruct (Hrows "web,BACKEND") as (Hin & Hshort & _).
    + apply list_elem_of_lookup. by exists 1%nat.
    + reflexivity.
    + split; [exact Hin|].
      apply (proj2 (Hshort ltac:(vm_compute; lia)) 2%nat "qcur");
        [vm_compute; lia | reflexivity].
Defined.

(* ===================================================================== *)
(** ** A whole pass: claim C9 *)
(* ===================================================================== *)

(** C9: two passes that get the same answer from the stats source, under
    the same settings and namespace, send the same datagrams, byte for
    byte and in the same order, and end with the same count or the same
    exception, whatever the clock shows, whatever was sent or printed
    before, and whatever the source would answer to other requests. *)
Theorem C9_pass_is_deterministic (conf : Conf) (namespace : string)
  (w1 w2 : World) :
  server w1 (ha_url conf) (auth_of (VStr (ha_user conf)) (VStr (ha_pass conf)))
  = server w2 (ha_url conf) (auth_of (VStr (ha_user conf)) (VStr (ha_pass conf))) ->
  fst (cycle conf namespace w1) = fst (cycle conf namespace w2)
  /\ exists sent : list Datagram,
       network (snd (cycle conf namespace w1)) = network w1 ++ sent
       /\ network (snd (cycle conf namespace w2)) = network w2 ++ sent.
Proof.
  intros Hsame. rewrite !cycle_run, Hsame.
  destruct (fetch_result _) as [e|it].
  - split; [reflexivity|]. exists []. by rewrite !app_nil_r.
  - destruct (emit_run _ _ _ it 0) as [[e|n] sent];
      (split; [reflexivity|]); by exists sent.
Qed.

(* ===================================================================== *)
(** ** Further properties of the emit stage *)
(* ===================================================================== *)

(** A count comes out of the row loop only when the iterator has ended
    without an exception, every row had its name and no datagram was
    refused; it then counts 13 datagrams for each row. *)
Lemma emit_run_count host port namespace (it : Iter Row) (c : Z) (n : Z) :
  fst (emit_run host port namespace it c) = Return n ->
  n = c + Z.of_nat (length (snd (emit_run host port namespace it c)))
  /\ length (snd (emit_run host port namespace it c)) = (length (items it) * 13)%nat
  /\ failure it = None.
Proof.
  revert c. induction it as [|e|row more IH]; intros c.
  - simpl. intros [= <-]. split; [lia | done].
  - simpl. intros [=].
  - cbn [emit_run items failure]. destruct (row_name namespace row) as [e|name];
      [intros [=]|].
    pose proof (sends_complete (row_datagrams host port name row stats)) as Hall.
    destruct (sends (row_datagrams host port name row stats)) as [s [e|]];
      [intros [=]|].
    cbn [fst snd] in Hall. rewrite (Hall eq_refl). clear Hall.
    specialize (IH (c + Z.of_nat (length stats))).
    destruct (emit_run host port namespace more (c + Z.of_nat (length stats)))
      as [r l]. cbn [fst snd] in *. intros Hn.
    destruct (IH Hn) as (Hcount & Hlen & Hfail).
    rewrite length_app, length_row_datagrams, Hlen, length_cons.
    split; [|split; [simpl; lia | done]].
    rewrite Hcount. simpl length. lia.
Qed.

(** X1: when [push_to_statsd] returns a count, the count is the number of
    datagrams it has sent, 13 for each row the iterator yielded, and the
    iterator has ended without an exception. *)
Theorem X1_count_is_number_sent (it : Iter Row) (host : string) (port : Z)
  (namespace : string) (w : World) :
  exists sent : list Datagram,
    snd (push_to_statsd it host port namespace w) = add_net w sent
    /\ forall n : Z,
         fst (push_to_statsd it host port namespace w) = Return n ->
         n = Z.of_nat (length sent)
         /\ length sent = (length (items it) * 13)%nat
         /\ failure it = None.
Proof.
  exists (snd (emit_run host port namespace it 0)).
  rewrite push_to_statsd_run. cbn [fst snd].
  split; [reflexivity|]. intros n Hn.
  destruct (emit_run_count host port namespace it 0 n Hn) as (Hcount & Hlen & Hfail).
  by rewrite Hcount.
Qed.

Lemma row_name_agree namespace (r1 r2 : Row) :
  agree r1 r2 -> row_name namespace r1 = row_name namespace r2.
Proof.
  intros Hagree. unfold row_name, getitem.
  rewrite (Hagree "pxname"), (Hagree "svname"); [reflexivity | |].
  - apply list_elem_of_lookup. by exists 1%nat.
  - apply list_elem_of_lookup. by exists 0%nat.
Qed.

Lemma row_datagrams_agree host port name (r1 r2 : Row) :
  agree r1 r2 ->
  row_datagrams host port name r1 stats = row_datagrams host port name r2 stats.
Proof.
  intros Hagree. unfold row_datagrams. apply map_ext_in. intros data Hdata.
  unfold metric_value, dict_get. rewrite (Hagree data); [reflexivity|].
  apply elem_of_cons. right. apply elem_of_cons. right.
  by apply list_elem_of_In.
Qed.

Lemma emit_run_agree host port namespace (rows1 rows2 : list Row)
  (tail : Iter Row) (c : Z) :
  Forall2 agree rows1 rows2 ->
  emit_run host port namespace (fold_right Yield tail rows1) c
  = emit_run host port namespace (fold_right Yield tail rows2) c.
Proof.
  intros Hall. revert c. induction Hall as [|r1 r2 rows1 rows2 Hr _ IH]; intros c;
    [reflexivity|].
  cbn [fold_right emit_run].
  rewrite (row_name_agree namespace r1 r2 Hr).
  destruct (row_name namespace r2) as [e|name]; [reflexivity|].
  by rewrite IH, (row_datagrams_agree host port name r1 r2 Hr).
Qed.

(** X2: the metric loop reads a row through pxname, svname and the 13
    selected fields only: two runs over rows that agree on those columns,
    ended the same way, return the same result and leave the same world,
    whatever else the rows hold. *)
Theorem X2_other_columns_are_ignored (rows1 rows2 : list Row) (tail : Iter Row)
  (host : string) (port : Z) (namespace : string) (w : World) :
  Forall2 agree rows1 rows2 ->
  push_to_statsd (fold_right Yield tail rows1) host port namespace w
  = push_to_statsd (fold_right Yield tail rows2) host port namespace w.
Proof.
  intros Hall. rewrite !push_to_statsd_run.
  by rewrite (emit_run_agree host port namespace rows1 rows2 tail 0 Hall).
Qed.



(* ===================================================================== *)
(** ** Further properties of the fetch stage and of a pass *)
(* ===================================================================== *)

(** X5: credentials need a user name. With an empty user name, or none,
    the request goes out without credentials, so that a password alone is
    never sent; with a user name the request carries that name and the
    password as given. *)
Theorem X5_credentials_need_a_user (url : string) (password other : value)
  (name : string) (w : World) :
  get_ha_stats url (VStr EmptyString) password w
  = (fetch_result (server w url None), w)
  /\ get_ha_stats url VNone other w = (fetch_result (server w url None), w)
  /\ (name <> EmptyString ->
      get_ha_stats url (VStr name) password w
      = (fetch_result (server w url (Some (VStr name, password))), w)).
Proof.
  rewrite !get_ha_stats_run. split; [reflexivity|]. split; [reflexivity|].
  intros Hname. unfold auth_of, truthy.
  by destruct (String.eqb_spec name EmptyString).
Qed.

(** X6: the fetch acts on nothing but the request: the world after it is
    the world before it, and an exception raised by the request itself
    comes out of [get_ha_stats] and out of the pass as it is, with nothing
    sent and nothing printed. *)
Theorem X6_request_failure_propagates (conf : Conf) (namespace : string)
  (w : World) (e : exn) :
  server w (ha_url conf) (auth_of (VStr (ha_user conf)) (VStr (ha_pass conf)))
  = Raise e ->
  get_ha_stats (ha_url conf) (VStr (ha_user conf)) (VStr (ha_pass conf)) w
  = (Raise e, w)
  /\ cycle conf namespace w = (Raise e, w).
Proof.
  intros Hget. by rewrite cycle_run, get_ha_stats_run, Hget.
Qed.

(** X7: only the statuses 400 to 599 stop a fetch. For any other status,
    be it 204, 301 or 99, [get_ha_stats] hands the body to the parser and
    returns its rows, and the world is unchanged. *)
Theorem X7_other_statuses_are_parsed (url : string) (user password : value)
  (w : World) (i : Response) :
  server w url (auth_of user password) = Return i ->
  status_code i < 400 \/ 600 <= status_code i ->
  get_ha_stats url user password w
  = (Return (DictReaderImpl.DictReader (splitlines (lstrip (content i) "# "))), w).
Proof.
  intros Hget Hstatus. rewrite get_ha_stats_run, Hget.
  unfold fetch_result, raise_for_status, lines_of. cbn [bindE].
  destruct (Z.leb_spec 400 (status_code i)); [|reflexivity].
  destruct (Z.ltb_spec (status_code i) 600); [lia | reflexivity].
Qed.

(** X7 at a concrete input: the status 301. *)
Lemma X7_witness :
  get_ha_stats (ha_url sample_conf) VNone VNone
    (world_of (mkResponse 301 plain_body) "12:00:00")
  = (Return (DictReaderImpl.DictReader (splitlines (lstrip plain_body "# "))),
     world_of (mkResponse 301 plain_body) "12:00:00").
Proof.
  apply (X7_other_statuses_are_parsed (ha_url sample_conf) VNone VNone
           (world_of (mkResponse 301 plain_body) "12:00:00")
           (mkResponse 301 plain_body)); [reflexivity | left; simpl; lia].
Defined.

Lemma add_out_net (w : World) (sent : list Datagram) (line : string) :
  network (add_out (add_net w sent) line) = network w ++ sent
  /\ stdout (add_out (add_net w sent) line) = stdout w ++ [line]
  /\ server (add_out (add_net w sent) line) = server w
  /\ clock (add_out (add_net w sent) line) = clock w.
Proof. done. Qed.

(** X8: a pass that ends well prints exactly one line, the clock's text
    followed by the count it returns, and that count is the number of
    datagrams the pass has sent; a pass that ends with an exception prints
    nothing. In both cases what was sent and printed before stays. *)
Theorem X8_report_line_counts_datagrams (conf : Conf) (namespace : string)
  (w : World) :
  exists sent : list Datagram,
    network (snd (cycle conf namespace w)) = network w ++ sent
    /\ match fst (cycle conf namespace w) with
       | Return n =>
           n = Z.of_nat (length sent)
           /\ stdout (snd (cycle conf namespace w))
              = stdout w ++ [clock w +:+ " - Reported " +:+ pretty n +:+ " stats"]
       | Raise _ => stdout (snd (cycle conf namespace w)) = stdout w
       end.
Proof.
  rewrite cycle_run.
  destruct (fetch_result _) as [e|it].
  - exists []. cbn [fst snd]. by rewrite app_nil_r.
  - pose proof (emit_run_count (statsd_host conf) (statsd_port conf) namespace it 0)
      as Hcount.
    destruct (emit_run _ _ _ it 0) as [[e|n] sent]; cbn [fst snd] in *.
    + by exists sent.
    + exists sent. split; [reflexivity|]. split; [|reflexivity].
      by destruct (Hcount n eq_refl) as [-> _].
Qed.

Lemma filter_nonblank_nil (data : list string) :
  Forall (fun line => nonblank line = false) data ->
  List.filter nonblank data = [].
Proof.
  induction 1 as [|line data Hline _ IH]; [reflexivity|].
  cbn [List.filter]. by rewrite Hline.
Qed.

(** X9: a successful response without data yields no row: when the body,
    after the strip, is empty, or holds a plain header line followed by
    blank lines only, the pass returns 0, sends nothing and prints its
    report line with the count 0. *)
Theorem X9_no_data_reports_zero (conf : Conf) (namespace : string) (w : World)
  (i : Response) :
  server w (ha_url conf) (auth_of (VStr (ha_user conf)) (VStr (ha_pass conf)))
  = Return i ->
  raise_for_status i = Return tt ->
  lines_of (content i) = []
  \/ (exists (header : string) (data : list string),
        lines_of (content i) = header :: data
        /\ plain_line header = true
        /\ Forall (fun line => nonblank line = false) data) ->
  get_ha_stats (ha_url conf) (VStr (ha_user conf)) (VStr (ha_pass conf)) w
  = (Return Stop, w)
  /\ cycle conf namespace w
     = (Return 0, add_out w (clock w +:+ " - Reported 0 stats")).
Proof.
  intros Hget Hok Hlines.
  assert (Hfetch : fetch_result (Return i) = Return Stop).
  { unfold fetch_result. cbn [bindE]. rewrite Hok. cbn [bindE]. f_equal.
    destruct Hlines as [-> | (header & data & -> & Hheader & Hblank)];
      [reflexivity|].
    rewrite DictReader_plain.
    - by rewrite (filter_nonblank_nil data Hblank).
    - constructor; [exact Hheader|].
      eapply Forall_impl; [exact Hblank|]. by intros [|c s]. }
  rewrite cycle_run, get_ha_stats_run, Hget, Hfetch. split; [reflexivity|].
  cbn [emit_run]. by rewrite add_net_nil.
Qed.

(* ===================================================================== *)
(** ** Further properties of the csv reader and of DictReader *)
(* ===================================================================== *)

Section MoreCsv.

Import Csv DictReaderImpl.

Lemma reader_plain_app (pre rest : list string) :
  Forall (fun line => plain_line line = true) pre ->
  reader (pre ++ rest) excel
  = fold_right Yield (reader rest excel) (map record_of_line pre).
Proof.
  unfold reader. induction 1 as [|line pre Hline _ IH]; [reflexivity|].
  cbn [app reader_from map fold_right]. rewrite (parse_plain_line line Hline).
  cbn [state is_START_RECORD fields]. by rewrite IH.
Qed.

Lemma rows_of_plain_tail (fieldnames : list string) (data : list string)
  (tail : Iter (list string)) :
  rows_of fieldnames (fold_right Yield tail (map record_of_line data))
  = fold_right Yield (rows_of fieldnames tail)
      (map (fun line => make_row fieldnames (split line COMMA))
           (List.filter nonblank data)).
Proof.
  induction data as [|line data IH]; [reflexivity|].
  destruct line as [|c s].
  - cbn [map fold_right rows_of record_of_line List.filter nonblank]. exact IH.
  - cbn [map fold_right List.filter nonblank]. rewrite <- IH.
    unfold record_of_line at 1, split.
    destruct (split_from_cons EmptyString COMMA (String c s)) as (f & fs & ->).
    reflexivity.
Qed.

(** What [DictReader] makes of plain lines followed by any further lines:
    the rows of the plain data lines, then whatever the reader makes of the
    further lines. *)
Lemma DictReader_plain_app (header : string) (data rest : list string) :
  Forall (fun line => plain_line line = true) (header :: data) ->
  DictReader (header :: data ++ rest)
  = fold_right Yield (rows_of (record_of_line header) (reader rest excel))
      (map (fun line => make_row (record_of_line header) (split line COMMA))
           (List.filter nonblank data)).
Proof.
  intros Hplain. unfold DictReader.
  change (header :: data ++ rest) with ((header :: data) ++ rest).
  rewrite (reader_plain_app (header :: data) rest Hplain).
  cbn [map fold_right]. apply rows_of_plain_tail.
Qed.

(** One plain byte taken by a parser that is at the start of a record,
    waits for a field or is inside an unquoted one. *)
Lemma plain_step (self : Reader) (c : ascii) :
  plain_char c = true ->
  state self = START_RECORD \/ ready self ->
  0 <= field_len self < field_limit ->
  exists self' : Reader,
    parse_process_char excel self c = Return self'
    /\ ready self' /\ 0 <= field_len self' <= field_len self + 1.
Proof.
  intros Hc Hst Hlen.
  destruct (plain_char_inv c Hc) as (Hnul & Hlf & Hcr & Hdq).
  assert (Hadd : forall r : Reader,
             field_len r = field_len self ->
             parse_add_char r c
             = Return {| fields := fields r; state := state r;
                         field := snoc (field r) c;
                         field_len := field_len r + 1 |}).
  { intros r Hr. unfold parse_add_char. rewrite Hr.
    destruct (Z.leb_spec field_limit (field_len self)); [lia | done]. }
  unfold parse_process_char, start_field, is_eol.
  destruct Hst as [Hst|[Hst|Hst]]; rewrite Hst;
    cbn [excel quotechar escapechar delimiter skipinitialspace quoting
         is_QUOTE_NONE negb];
    rewrite ?Hnul, ?Hlf, ?Hcr, ?Hdq; cbn [orb andb];
    rewrite ?andb_false_r; destruct (eqc c COMMA);
    rewrite ?Hadd by reflexivity; cbn [bindE];
    (eexists; split; [reflexivity|]); unfold ready;
    cbn [set_state parse_save_field state field_len]; rewrite ?Hst;
    (split; [auto | lia]).
Qed.


End MoreCsv.

(** X10: blank data lines give no row. For a successful response whose
    lines hold no double quote and no NUL byte and are at most 131072
    bytes long, the fetch yields as many rows as there are data lines that
    are not blank, and the row at each place is the row of the line at
    that place among them. *)
Theorem X10_blank_lines_are_skipped (url : string) (user password : value)
  (w : World) (i : Response) (header : string) (data : list string) :
  server w url (auth_of user password) = Return i ->
  raise_for_status i = Return tt ->
  lines_of (content i) = header :: data ->
  Forall (fun line => plain_line line = true) (header :: data) ->
  exists rows : list Row,
    get_ha_stats url user password w = (Return (iter rows), w)
    /\ length rows = length (List.filter nonblank data)
    /\ forall (n : nat) (line : string),
         List.filter nonblank data !! n = Some line ->
         rows !! n = Some (DictReaderImpl.make_row (record_of_line header)
                             (split line COMMA)).
Proof.
  intros Hget Hok Hlines Hplain. eexists.
  split; [by apply (get_ha_stats_plain url user password w i header data)|].
  split; [by rewrite length_map|].
  intros n line Hline. by rewrite list_lookup_fmap, Hline.
Qed.

(** X10 at a concrete input: a blank line between two data lines. *)
Lemma X10_witness :
  exists rows : list Row,
    get_ha_stats (ha_url sample_conf) VNone VNone
      (world_of (mkResponse 200 blank_line_body) "12:00:00")
    = (Return (iter rows), world_of (mkResponse 200 blank_line_body) "12:00:00")
    /\ length rows = 2%nat.
Proof.
  destruct (X10_blank_lines_are_skipped (ha_url sample_conf) VNone VNone
              (world_of (mkResponse 200 blank_line_body) "12:00:00")
              (mkResponse 200 blank_line_body) "pxname,svname"
              ["web,FRONTEND"; EmptyString; "web,BACKEND"])
    as (rows & Hrun & Hlen & _).
  - reflexivity.
  - reflexivity.
  - vm_compute; reflexivity.
  - repeat constructor.
  - exists rows. split; [exact Hrun | exact Hlen].
Defined.



Lemma foldl_zip_last (ks vs : list string) (d : gmap string value)
  (j : nat) (k v : string) :
  ks !! j = Some k ->
  (forall j' : nat, (j < j')%nat -> ks !! j' <> Some k) ->
  vs !! j = Some v ->
  foldl (fun d kv => <[fst kv := VStr (snd kv)]> d) d (zip ks vs) !! k
  = Some (VStr v).
Proof.
  revert vs d j. induction ks as [|k' ks IH]; intros vs d j Hk Hlast Hv; [done|].
  destruct vs as [|v' vs]; [done|].
  cbn [zip zip_with foldl fst snd].
  destruct j as [|j]; simpl in Hk, Hv.
  - simplify_eq. rewrite foldl_zip_notin; [apply lookup_insert_eq|].
    intros Hin. apply list_elem_of_lookup in Hin as (j' & Hj').
    apply (Hlast (S j')); [lia | exact Hj'].
  - apply (IH vs _ j); [done | | done].
    intros j' Hlt. apply (Hlast (S j')). lia.
Qed.

(** X12: when a column name occurs more than once in the header, a row
    holds under that name the value of the last column that bears it,
    provided the line reaches that column. *)
Theorem X12_last_duplicate_column_wins (fieldnames row : list string)
  (j : nat) (name v : string) :
  fieldnames !! j = Some name ->
  (forall j' : nat, (j < j')%nat -> fieldnames !! j' <> Some name) ->
  row !! j = Some v ->
  cols (DictReaderImpl.make_row fieldnames row) !! name = Some (VStr v).
Proof.
  intros Hname Hlast Hv.
  assert (Hzip : DictReaderImpl.dict_zip fieldnames row !! name = Some (VStr v))
    by by apply (foldl_zip_last _ _ _ j).
  unfold DictReaderImpl.make_row.
  destruct (Nat.ltb (length fieldnames) (length row)); [exact Hzip|].
  destruct (Nat.ltb (length row) (length fieldnames)); [|exact Hzip].
  cbn [cols]. rewrite fill_restval_notin; [exact Hzip|].
  intros Hin. apply list_elem_of_lookup in Hin as (n & Hn).
  rewrite lookup_drop in Hn.
  pose proof (lookup_lt_Some _ _ _ Hv) as Hj.
  apply (Hlast (length row + n)%nat); [lia | exact Hn].
Qed.

(** X12 at a concrete input: two columns named scur. *)
Lemma X12_witness :
  cols (DictReaderImpl.make_row ["pxname"; "scur"; "svname"; "scur"]
          ["web"; "1"; "FRONTEND"; "2"]) !! "scur" = Some (VStr "2").
Proof.
  apply (X12_last_duplicate_column_wins _ _ 3%nat); [reflexivity | | reflexivity].
  intros j' Hlt Hj'. apply lookup_lt_Some in Hj'. simpl in Hj'. lia.
Defined.

Section Quoting.

Import Csv.

Lemma bindE_Return {A B : Type} (a : A) (k : A -> Exc B) :
  bindE (Return a) k = k a.
Proof. reflexivity. Qed.

Lemma append_nil_r (s : string) : s +:+ EmptyString = s.
Proof.
  induction s as [|c s IH]; [reflexivity|].
  change (String c (s +:+ EmptyString) = String c s). by rewrite IH.
Qed.

Lemma snoc_append (cur : string) (c : ascii) (s : string) :
  snoc cur c +:+ s = cur +:+ String c s.
Proof. unfold snoc. by rewrite append_assoc. Qed.





End Quoting.



Section FieldLimit.

Import Csv.

Lemma field_char_inv (c : ascii) :
  field_char c = true -> plain_char c = true /\ eqc c COMMA = false.
Proof.
  unfold field_char. intros H. apply andb_true_iff in H as [Hp Hc].
  by apply negb_true_iff in Hc.
Qed.

(** A run of field bytes that does not fit the field in progress is
    refused at the byte that would pass the limit. *)
Lemma parse_line_overflow (s rest : string) (self : Reader) :
  state self = START_RECORD \/ ready self ->
  0 <= field_len self <= field_limit ->
  field_limit < field_len self + len s ->
  all_field s = true ->
  parse_line excel self (s +:+ rest)
  = Raise (csv_Error "field larger than field limit (131072)").
Proof.
  revert self. induction s as [|c s IH]; intros self Hst Hlen Hover Hall.
  - cbn [len] in Hover. lia.
  - cbn [all_field] in Hall. apply andb_true_iff in Hall as [Hc Hs].
    destruct (field_char_inv c Hc) as [Hp Hcomma].
    destruct (plain_char_inv c Hp) as (Hnul & Hlf & Hcr & Hdq).
    cbn [len] in Hover.
    change (String c s +:+ rest) with (String c (s +:+ rest)).
    cbn [parse_line]. rewrite Hnul.
    destruct (Z.eq_dec (field_len self) field_limit) as [Hfull|Hroom].
    + assert (Hadd : forall r : Reader,
                 field_len r = field_len self ->
                 parse_add_char r c
                 = Raise (csv_Error "field larger than field limit (131072)")).
      { intros r Hr. unfold parse_add_char. rewrite Hr, Hfull.
        by rewrite Z.leb_refl. }
      unfold parse_process_char, start_field, is_eol.
      destruct Hst as [Hst|[Hst|Hst]]; rewrite Hst;
        cbn [excel quotechar escapechar delimiter skipinitialspace quoting
             is_QUOTE_NONE negb];
        rewrite ?Hnul, ?Hlf, ?Hcr, ?Hdq, ?Hcomma; cbn [orb andb];
        rewrite ?andb_false_r, ?Hcomma; rewrite Hadd by reflexivity;
        reflexivity.
    + destruct (plain_step self c Hp Hst ltac:(lia))
        as (self' & Hstep & Hready & Hlen').
      rewrite Hstep, bindE_Return.
      assert (Hgrow : field_len self' = field_len self + 1).
      { revert Hstep. unfold parse_process_char, start_field, is_eol, parse_add_char.
        destruct Hst as [Hst|[Hst|Hst]]; rewrite Hst;
          cbn [excel quotechar escapechar delimiter skipinitialspace quoting
               is_QUOTE_NONE negb set_state field_len];
          rewrite ?Hnul, ?Hlf, ?Hcr, ?Hdq, ?Hcomma; cbn [orb andb];
          rewrite ?andb_false_r, ?Hcomma;
          (destruct (Z.leb_spec field_limit (field_len self)); [lia|]);
          cbn [bindE]; by intros [= <-]. }
      apply IH; [by right | lia | lia | done].
Qed.

End FieldLimit.

(** X14: a field of more than 131072 bytes is a parse error that waits
    for its turn. When the header and the data lines before are plain and
    a data line starts with more than 131072 bytes that are neither comma
    nor quote, the iterator yields the rows of the lines before and then
    raises [csv.Error] for the field size; the lines after it are never
    read. *)
Theorem X14_field_over_limit_fails (header : string) (data post : list string)
  (s more : string) :
  Forall (fun line => plain_line line = true) (header :: data) ->
  all_field s = true ->
  Csv.field_limit < len s ->
  DictReaderImpl.DictReader (header :: data ++ (s +:+ more) :: post)
  = fold_right Yield
      (Fail (csv_Error "field larger than field limit (131072)"))
      (map (fun line => DictReaderImpl.make_row (record_of_line header)
                          (split line COMMA))
           (List.filter nonblank data)).
Proof.
  intros Hplain Hall Hlen. rewrite DictReader_plain_app by done. f_equal.
  unfold Csv.reader. cbn [Csv.reader_from].
  rewrite (parse_line_overflow s more Csv.parse_reset);
    [reflexivity | by left | | | done].
  - simpl. unfold Csv.field_limit. lia.
  - simpl. lia.
Qed.

(** X14 at a concrete input: a data line of 131073 bytes and more under a
    plain header; the same bytes without the last one are within the
    limit. *)
Lemma X14_witness :
  DictReaderImpl.DictReader
    ("pxname,svname" :: [] ++ (bytes 131073 "a" +:+ ",FRONTEND") :: [])
  = Fail (csv_Error "field larger than field limit (131072)")
  /\ plain_line (bytes 131072 "a") = true.
Proof.
  split; [|vm_compute; reflexivity].
  apply (X14_field_over_limit_fails "pxname,svname" [] [] (bytes 131073 "a")
           ",FRONTEND").
  - repeat constructor.
  - vm_compute; reflexivity.
  - vm_compute; reflexivity.
Defined.

(* ===================================================================== *)
(** ** Further properties of the line splitting *)
(* ===================================================================== *)

Lemma unbroken_snoc (cur : string) (c : ascii) :
  unbroken cur = true -> unbroken_char c = true -> unbroken (snoc cur c) = true.
Proof.
  intros Hcur Hc. induction cur as [|d cur IH].
  - simpl. by rewrite Hc.
  - cbn [unbroken] in Hcur. apply andb_true_iff in Hcur as [Hd Hcur].
    change (snoc (String d cur) c) with (String d (snoc cur c)).
    cbn [unbroken]. by rewrite Hd, IH.
Qed.

Lemma splitlines_from_unbroken (s cur : string) (started cr : bool) :
  unbroken cur = true ->
  Forall (fun line => unbroken line = true) (splitlines_from cur started cr s).
Proof.
  revert cur started cr. induction s as [|c s IH]; intros cur started cr Hcur.
  - simpl. destruct started; by repeat constructor.
  - cbn [splitlines_from].
    destruct (eqc c LF) eqn:Hlf.
    + destruct cr; [by apply IH | constructor; [done | by apply IH]].
    + destruct (eqc c CR) eqn:Hcr.
      * constructor; [done | by apply IH].
      * apply IH. apply unbroken_snoc; [done|].
        unfold unbroken_char. by rewrite Hlf, Hcr.
Qed.

(** X15: no line that [splitlines] returns holds a line feed or a carriage
    return, so the csv reader never meets a line break inside the lines
    [get_ha_stats] hands to it. *)
Theorem X15_lines_hold_no_line_break (body : string) :
  Forall (fun line => unbroken line = true) (splitlines body)
  /\ Forall (fun line => unbroken line = true) (lines_of body).
Proof.
  split; [| unfold lines_of]; by apply splitlines_from_unbroken.
Qed.

Lemma splitlines_from_line (l rest cur : string) (started : bool) :
  unbroken l = true ->
  splitlines_from cur started false (l +:+ String LF rest)
  = (cur +:+ l) :: splitlines_from EmptyString false false rest
  /\ splitlines_from cur started false (l +:+ String CR (String LF rest))
     = (cur +:+ l) :: splitlines_from EmptyString false false rest.
Proof.
  revert cur started. induction l as [|c l IH]; intros cur started Hl.
  - rewrite append_nil_r. split; reflexivity.
  - cbn [unbroken] in Hl. apply andb_true_iff in Hl as [Hc Hl].
    unfold unbroken_char in Hc. apply negb_true_iff, orb_false_iff in Hc as [Hlf Hcr].
    change (String c l +:+ ?x) with (String c (l +:+ x)).
    cbn [splitlines_from]. rewrite Hlf, Hcr.
    destruct (IH (snoc cur c) true Hl) as [H1 H2].
    rewrite H1, H2, snoc_append. by split.
Qed.

Lemma splitlines_unlines (ls : list string) :
  Forall (fun line => unbroken line = true) ls ->
  splitlines (unlines (String LF EmptyString) ls) = ls
  /\ splitlines (unlines (String CR (String LF EmptyString)) ls) = ls.
Proof.
  unfold splitlines. induction 1 as [|l ls Hl _ [IH1 IH2]]; [by split|].
  cbn [unlines].
  change (String LF EmptyString +:+ ?x) with (String LF x).
  change (String CR (String LF EmptyString) +:+ ?x) with (String CR (String LF x)).
  destruct (splitlines_from_line l (unlines (String LF EmptyString) ls)
              EmptyString false Hl) as [H1 _].
  destruct (splitlines_from_line l (unlines (String CR (String LF EmptyString)) ls)
              EmptyString false Hl) as [_ H2].
  rewrite H1, H2, IH1, IH2. by split.
Qed.

(** X16: a body made of the marker and of lines that each end with a line
    feed, or each with a carriage return and a line feed, is taken apart
    into exactly those lines, provided no line holds a line break and the
    first line starts with neither [#] nor a space. *)
Theorem X16_lines_round_trip (ls : list string) :
  Forall (fun line => unbroken line = true) ls ->
  match ls with
  | String c _ :: _ => mem c "# " = false
  | _ => True
  end ->
  lines_of (String "#" (String " " (unlines (String LF EmptyString) ls))) = ls
  /\ lines_of (String "#" (String " "
                 (unlines (String CR (String LF EmptyString)) ls))) = ls.
Proof.
  intros Hls Hfirst. unfold lines_of. rewrite !lstrip_marker.
  destruct (splitlines_unlines ls Hls) as [H1 H2].
  rewrite !lstrip_fixed; [by split | |].
  - destruct ls as [|[|c l] ls]; [done | reflexivity | exact Hfirst].
  - destruct ls as [|[|c l] ls]; [done | reflexivity | exact Hfirst].
Qed.

(** X16 at a concrete input: a header, a data line and a blank line. *)
Lemma X16_witness :
  lines_of (String "#" (String " " (unlines (String LF EmptyString)
              ["pxname,svname"; "web,FRONTEND"; EmptyString])))
  = ["pxname,svname"; "web,FRONTEND"; EmptyString].
Proof.
  apply (proj1 (X16_lines_round_trip
                  ["pxname,svname"; "web,FRONTEND"; EmptyString]
                  ltac:(repeat constructor) eq_refl)).
Defined.

(* ===================================================================== *)
(** ** Further properties: fetch and emit together *)
(* ===================================================================== *)



(* ===================================================================== *)
(** ** Properties of the main block *)
(* ===================================================================== *)

Lemma replace_absent (s old new : string) :
  str_contains s old = false -> replace_from O s old new = s.
Proof.
  induction s as [|c s IH]; [reflexivity|].
  cbn [str_contains replace_from]. intros H.
  apply orb_false_iff in H as [Hstart Hrest].
  rewrite Hstart. by rewrite IH.
Qed.

Lemma replace_past (a rest old new : string) :
  match old with
  | EmptyString => False
  | String o _ => str_contains a (String o EmptyString) = false
  end ->
  replace_from O (a +:+ rest) old new = a +:+ replace_from O rest old new.
Proof.
  destruct old as [|o old]; [done|].
  induction a as [|c a IH]; intros Ha; [reflexivity|].
  cbn [str_contains startswith] in Ha.
  apply orb_false_iff in Ha as [Hc Ha].
  assert (Hco : eqc c o = false).
  { destruct (eqc c o); [|done]. by destruct a. }
  change (String c a +:+ rest) with (String c (a +:+ rest)).
  cbn [replace_from startswith]. rewrite Hco. cbn [andb].
  rewrite IH by done. reflexivity.
Qed.

Lemma startswith_append (old rest : string) : startswith (old +:+ rest) old = true.
Proof.
  induction old as [|o old IH]; [by destruct rest|].
  change (String o old +:+ rest) with (String o (old +:+ rest)).
  cbn [startswith]. unfold eqc. by rewrite Ascii.eqb_refl, IH.
Qed.

Lemma replace_from_skip (p rest old new : string) :
  replace_from (String.length p) (p +:+ rest) old new
  = replace_from O rest old new.
Proof.
  induction p as [|c p IH]; [reflexivity|].
  change (String c p +:+ rest) with (String c (p +:+ rest)).
  exact IH.
Qed.

(** An occurrence at the head is replaced and passed over. *)
Lemma replace_at_head (o : ascii) (old rest new : string) :
  replace_from O (String o old +:+ rest) (String o old) new
  = new +:+ replace_from O rest (String o old) new.
Proof.
  pose proof (startswith_append (String o old) rest) as Hstart.
  change (String o old +:+ rest) with (String o (old +:+ rest)) in *.
  change (replace_from O (String o (old +:+ rest)) (String o old) new)
    with (if startswith (String o (old +:+ rest)) (String o old)
          then new +:+ replace_from (String.length (String o old) - 1)
                         (old +:+ rest) (String o old) new
          else String o (replace_from O (old +:+ rest) (String o old) new)).
  rewrite Hstart.
  change (String.length (String o old) - 1)%nat with (String.length old - 0)%nat.
  by rewrite Nat.sub_0_r, replace_from_skip.
Qed.

(** X18: the namespace as the loop uses it. Where the token does not occur
    the setting is used as it is, and the guard of the replacement changes
    nothing: the result is the replacement in every case. In a setting
    that holds the token after a text without an opening bracket, the text
    is kept, the host name stands where the token stood, and what follows
    is resolved in the same way, so that every further token is replaced
    as well. *)
Theorem X18_namespace_resolution (namespace hostname before after : string) :
  resolve_namespace namespace hostname = str_replace namespace HOSTNAME hostname
  /\ (str_contains namespace HOSTNAME = false ->
      resolve_namespace namespace hostname = namespace)
  /\ (str_contains before "(" = false ->
      resolve_namespace (before +:+ HOSTNAME +:+ after) hostname
      = before +:+ hostname +:+ resolve_namespace after hostname).
Proof.
  assert (Hguard : forall s, resolve_namespace s hostname
                             = str_replace s HOSTNAME hostname).
  { intros s. unfold resolve_namespace, str_replace.
    destruct (str_contains s HOSTNAME) eqn:Hin; [reflexivity|].
    by rewrite replace_absent. }
  split; [apply Hguard|]. split.
  - intros Habsent. unfold resolve_namespace. by rewrite Habsent.
  - intros Hbefore. rewrite !Hguard. unfold str_replace.
    rewrite (replace_past before (HOSTNAME +:+ after) HOSTNAME hostname Hbefore).
    f_equal. unfold HOSTNAME. apply replace_at_head.
Qed.

(** X18 at a concrete input: the token in the middle of the setting. *)
Lemma X18_witness :
  resolve_namespace ("haproxy." +:+ HOSTNAME +:+ ".stats") "lb01"
  = "haproxy." +:+ "lb01" +:+ resolve_namespace ".stats" "lb01"
  /\ resolve_namespace "haproxy.stats" "lb01" = "haproxy.stats".
Proof.
  split.
  - apply (proj2 (proj2 (X18_namespace_resolution "haproxy.stats" "lb01"
                           "haproxy." ".stats"))).
    reflexivity.
  - apply (proj1 (proj2 (X18_namespace_resolution "haproxy.stats" "lb01"
                           "haproxy." ".stats"))).
    reflexivity.
Defined.

Lemma cycle_grows (conf : Conf) (namespace : string) (w : World) :
  exists (sent : list Datagram) (printed : list string),
    network (snd (cycle conf namespace w)) = network w ++ sent
    /\ stdout (snd (cycle conf namespace w)) = stdout w ++ printed.
Proof.
  rewrite cycle_run. destruct (fetch_result _) as [e|it].
  - exists [], []. cbn [snd]. by rewrite !app_nil_r.
  - destruct (emit_run _ _ _ it 0) as [[e|n] sent]; cbn [snd].
    + exists sent, []. by rewrite app_nil_r.
    + by exists sent, [report_line (clock w) n].
Qed.

Lemma turn_grows (conf : Conf) (namespace : string) (test : bool) (w : World) :
  exists (sent : list Datagram) (printed : list string),
    network (snd (turn conf namespace test w)) = network w ++ sent
    /\ stdout (snd (turn conf namespace test w)) = stdout w ++ printed.
Proof.
  destruct (cycle_grows conf namespace w) as (sent & printed & Hnet & Hout).
  exists sent, printed. unfold turn.
  destruct (cycle conf namespace w) as [[e|n] w']; [done|].
  by destruct test.
Qed.

(** X19: under [--test] the loop makes exactly one pass, whatever the
    later answers of the stats source would be: it leaves with the exit
    code 0 when the pass ends well, and with the exception of the pass
    otherwise; it never goes to sleep. *)
Theorem X19_test_flag_runs_one_pass (conf : Conf) (namespace : string)
  (wakes : list ((string -> option Auth -> Exc Response) * string)) (w : World) :
  main_loop conf namespace true wakes w
  = match cycle conf namespace w with
    | (Return _, w') => (Exited 0, w')
    | (Raise e, w') => (Uncaught e, w')
    end
  /\ fst (main_loop conf namespace true wakes w) <> Asleep.
Proof.
  assert (Hone : main_loop conf namespace true wakes w
                 = match cycle conf namespace w with
                   | (Return _, w') => (Exited 0, w')
                   | (Raise e, w') => (Uncaught e, w')
                   end).
  { destruct wakes; cbn [main_loop]; unfold turn;
      by destruct (cycle conf namespace w) as [[e|n] w']. }
  split; [exact Hone|]. rewrite Hone.
  by destruct (cycle conf namespace w) as [[e|n] w'].
Qed.

(** X20: without [--test] the script never leaves by itself with an exit
    code: after any number of wake-ups it is asleep or has died of an
    exception. And in either mode nothing is ever taken back: the
    datagrams and the printed lines of the world before are a prefix of
    those after. *)
Theorem X20_loop_only_adds (conf : Conf) (namespace : string) (test : bool)
  (wakes : list ((string -> option Auth -> Exc Response) * string)) (w : World) :
  (exists (sent : list Datagram) (printed : list string),
      network (snd (main_loop conf namespace test wakes w)) = network w ++ sent
      /\ stdout (snd (main_loop conf namespace test wakes w))
         = stdout w ++ printed)
  /\ forall code : Z,
       fst (main_loop conf namespace false wakes w) <> Exited code.
Proof.
  split.
  - revert w. induction wakes as [|env wakes IH]; intros w.
    + destruct (turn_grows conf namespace test w) as (sent & printed & Hnet & Hout).
      exists sent, printed. cbn [main_loop].
      by destruct (turn conf namespace test w) as [[code|e|] w'].
    + destruct (turn_grows conf namespace test w) as (sent & printed & Hnet & Hout).
      cbn [main_loop].
      destruct (turn conf namespace test w) as [[code|e|] w']; cbn [snd] in *;
        [by exists sent, printed | by exists sent, printed |].
      destruct (IH (wake w' env)) as (sent' & printed' & Hnet' & Hout').
      exists (sent ++ sent'), (printed ++ printed').
      rewrite Hnet', Hout'. cbn [wake network stdout].
      by rewrite Hnet, Hout, !app_assoc.
  - intros code. revert w. induction wakes as [|env wakes IH]; intros w;
      cbn [main_loop]; unfold turn;
      destruct (cycle conf namespace w) as [[e|n] w']; done.
Qed.

(** X21: an error status of the stats source ends the script. At the turn
    where the source answers with a status from 400 to 599 the exception
    reaches the top level, in either mode; nothing is sent or printed at
    that turn, and no later turn takes place, whatever the source would
    answer then. *)
Theorem X21_error_status_ends_the_loop (conf : Conf) (namespace : string)
  (test : bool)
  (wakes : list ((string -> option Auth -> Exc Response) * string)) (w : World)
  (i : Response) :
  server w (ha_url conf) (auth_of (VStr (ha_user conf)) (VStr (ha_pass conf)))
  = Return i ->
  400 <= status_code i < 600 ->
  main_loop conf namespace test wakes w = (Uncaught (HTTPError (status_code i)), w).
Proof.
  intros Hget Hstatus.
  assert (Hcycle : cycle conf namespace w = (Raise (HTTPError (status_code i)), w)).
  { rewrite cycle_run, Hget. unfold fetch_result, raise_for_status. cbn [bindE].
    destruct (Z.leb_spec 400 (status_code i)); [|lia].
    by destruct (Z.ltb_spec (status_code i) 600); [|lia]. }
  destruct wakes; cbn [main_loop]; unfold turn; by rewrite Hcycle.
Qed.

End Socket.

(* ===================================================================== *)
(** ** The theorems at concrete inputs *)
(* ===================================================================== *)











(** C6, counterexample: a response with the status 300 is not a success,
    yet [raise_for_status]
    lets it pass: the body is parsed, [get_ha_stats] returns its two rows,
    and the pass sends their 26 datagrams. *)
Lemma C6_counterexample :
  (status_code (mkResponse 300 plain_body) < 200
   \/ 300 <= status_code (mkResponse 300 plain_body))
  /\ (exists rows : list Row,
        fst (get_ha_stats (ha_url sample_conf) (VStr (ha_user sample_conf))
               (VStr (ha_pass sample_conf))
               (world_of (mkResponse 300 plain_body) "12:00:00"))
        = Return (iter rows)
        /\ length rows = 2%nat)
  /\ fst (cycle local_resolver sample_conf "haproxy"
            (world_of (mkResponse 300 plain_body) "12:00:00")) = Return 26
  /\ length (network (snd (cycle local_resolver sample_conf "haproxy"
                             (world_of (mkResponse 300 plain_body) "12:00:00"))))
     = 26%nat.
Proof.
  split; [right; simpl; lia|].
  split.
  - eexists [_; _]. split; [vm_compute; reflexivity | reflexivity].
  - split; vm_compute; reflexivity.
Qed.

(** C6 at a concrete input: the status 404. *)
Lemma C6_witness :
  get_ha_stats (ha_url sample_conf) (VStr (ha_user sample_conf))
    (VStr (ha_pass sample_conf)) (world_of (mkResponse 404 plain_body) "12:00:00")
  = (Raise (HTTPError 404), world_of (mkResponse 404 plain_body) "12:00:00")
  /\ cycle local_resolver sample_conf "haproxy" (world_of (mkResponse 404 plain_body) "12:00:00")
     = (Raise (HTTPError 404), world_of (mkResponse 404 plain_body) "12:00:00")
  /\ network (snd (cycle local_resolver sample_conf "haproxy"
                     (world_of (mkResponse 404 plain_body) "12:00:00")))
     = [].
Proof.
  apply (C6_error_status_aborts local_resolver sample_conf "haproxy"
           (world_of (mkResponse 404 plain_body) "12:00:00")
           (mkResponse 404 plain_body)); [reflexivity | simpl; lia].
Defined.

(** C7, counterexample: the second data line of [ragged_body] has two
    columns and the third
    has five, under a header of three: the fetch does not fail; it yields a
    row for each, the short one with [None] under qcur, the long one with
    its surplus values kept aside, and the pass sends the 39 datagrams of
    the three rows. *)
Lemma C7_counterexample :
  lines_of ragged_body
  = ["pxname,svname,qcur"; "web,FRONTEND,1"; "web,BACKEND"; "web,srv1,0,9,8"]
  /\ (exists r1 r2 r3 : Row,
        get_ha_stats (ha_url sample_conf) VNone VNone
          (world_of (mkResponse 200 ragged_body) "12:00:00")
        = (Return (iter [r1; r2; r3]),
           world_of (mkResponse 200 ragged_body) "12:00:00")
        /\ cols r2 !! "svname" = Some (VStr "BACKEND")
        /\ cols r2 !! "qcur" = Some VNone
        /\ rest r3 = Some ["9"; "8"])
  /\ fst (cycle local_resolver sample_conf "haproxy"
            (world_of (mkResponse 200 ragged_body) "12:00:00")) = Return 39
  /\ network (snd (cycle local_resolver sample_conf "haproxy"
                     (world_of (mkResponse 200 ragged_body) "12:00:00")))
     !! 13%nat
     = Some ("haproxy.web.BACKEND.qcur:0|g", ("127.0.0.1", 8125)).
Proof.
  split; [reflexivity|]. split.
  - eexists _, _, _. split; [vm_compute; reflexivity|].
    repeat split; vm_compute; reflexivity.
  - split; vm_compute; reflexivity.
Qed.

(** C9 at a concrete input: the same answer in two different worlds. *)
Lemma C9_witness :
  fst (cycle local_resolver sample_conf "haproxy"
         (world_of (mkResponse 200 plain_body) "12:00:00"))
  = fst (cycle local_resolver sample_conf "haproxy" (later_world (mkResponse 200 plain_body)))
  /\ exists sent : list Datagram,
       network (snd (cycle local_resolver sample_conf "haproxy"
                       (world_of (mkResponse 200 plain_body) "12:00:00")))
       = [] ++ sent
       /\ network (snd (cycle local_resolver sample_conf "haproxy"
                          (later_world (mkResponse 200 plain_body))))
          = [("haproxy.old.BACKEND.bout:1|g", ("127.0.0.1", 8125))] ++ sent.
Proof.
  apply (C9_pass_is_deterministic local_resolver sample_conf "haproxy"
           (world_of (mkResponse 200 plain_body) "12:00:00")
           (later_world (mkResponse 200 plain_body))).
  reflexivity.
Defined.

(** X2 at a concrete input: the frontend row with and without a status
    column and surplus values. *)
Lemma X2_witness :
  push_to_statsd local_resolver
    (fold_right Yield Stop
       [DictReaderImpl.make_row
          ["pxname"; "svname"; "qcur"; "scur"; "bin"; "status"]
          ["web"; "FRONTEND"; EmptyString; "7"; "4096"; "OPEN"; "x"]])
    "127.0.0.1" 8125 "haproxy" (world_of (mkResponse 200 plain_body) "12:00:00")
  = push_to_statsd local_resolver (fold_right Yield Stop [frontend_row])
      "127.0.0.1" 8125 "haproxy" (world_of (mkResponse 200 plain_body) "12:00:00").
Proof.
  apply (X2_other_columns_are_ignored local_resolver).
  constructor; [|constructor].
  intros key Hkey.
  repeat (apply elem_of_cons in Hkey as [->|Hkey]; [vm_compute; reflexivity|]).
  by apply elem_of_nil in Hkey.
Defined.



(** X6 at a concrete input: the stats source cannot be reached. *)
Lemma X6_witness :
  cycle local_resolver sample_conf "haproxy"
    {| server := fun _ _ => Raise (RequestException "Connection refused");
       network := []; stdout := []; clock := "12:00:00" |}
  = (Raise (RequestException "Connection refused"),
     {| server := fun _ _ => Raise (RequestException "Connection refused");
        network := []; stdout := []; clock := "12:00:00" |}).
Proof.
  apply (proj2 (X6_request_failure_propagates local_resolver sample_conf "haproxy"
                  {| server := fun _ _ => Raise (RequestException "Connection refused");
                     network := []; stdout := []; clock := "12:00:00" |}
                  (RequestException "Connection refused") eq_refl)).
Defined.

(** X9 at a concrete input: a body that is the header line alone. *)
Lemma X9_witness :
  cycle local_resolver sample_conf "haproxy"
    (world_of (mkResponse 200 "# pxname,svname,qcur") "12:00:00")
  = (Return 0,
     add_out (world_of (mkResponse 200 "# pxname,svname,qcur") "12:00:00")
       "12:00:00 - Reported 0 stats").
Proof.
  refine (proj2 (X9_no_data_reports_zero local_resolver sample_conf "haproxy"
                   (world_of (mkResponse 200 "# pxname,svname,qcur") "12:00:00")
                   (mkResponse 200 "# pxname,svname,qcur") _ _ _)).
  - reflexivity.
  - reflexivity.
  - right. exists "pxname,svname,qcur", [].
    split; [reflexivity|]. split; [reflexivity | constructor].
Defined.


(** X21 at a concrete input: the status 503 at the first turn, with a
    healthy source waiting at the next wake-up. *)
Lemma X21_witness :
  main_loop local_resolver sample_conf "haproxy" false
    [(fun _ _ => Return (mkResponse 200 plain_body), "12:00:10")]
    (world_of (mkResponse 503 EmptyString) "12:00:00")
  = (Uncaught (HTTPError 503), world_of (mkResponse 503 EmptyString) "12:00:00").
Proof.
  apply (X21_error_status_ends_the_loop local_resolver sample_conf "haproxy" false
           [(fun _ _ => Return (mkResponse 200 plain_body), "12:00:10")]
           (world_of (mkResponse 503 EmptyString) "12:00:00")
           (mkResponse 503 EmptyString)); [reflexivity | simpl; lia].
Defined.
